(** * Estoque Operacional ([estqop.py]): product / sale reconciliation

    A shallow embedding of the three report generators of
    [src/estoque_operacional/estqop.py] and of the entry point that guards
    them, with the properties of the derived reports proved over it.

    Python [int] is unbounded and is modelled by [Z]; positions produced by
    [enumerate] are modelled by [nat]; [str] is modelled by [string], holding
    the UTF-8 bytes of the source literals. *)

From Stdlib Require Import String Ascii DecimalString.
From Stdlib Require Import List ZArith Lia Bool Arith Permutation Sorted.
Import ListNotations.

Local Open Scope Z_scope.

(** ** Python built-ins used by the generators *)

Module Py.

Section Builtins.

Context {A : Type}.

(** [enumerate(xs)]: pairs every element with its 0-based position. *)
Fixpoint enumerate_from (n : nat) (xs : list A) : list (nat * A) :=
  match xs with
  | [] => []
  | x :: xs' => (n, x) :: enumerate_from (S n) xs'
  end.

Definition enumerate (xs : list A) : list (nat * A) := enumerate_from 0 xs.

(** [sorted(xs, key=key)].  Python's sort is stable and only ever compares
    keys with [<]; the result of a stable sort is determined by its input, so
    it is modelled by the stable insertion sort below: an element is moved
    past exactly the elements whose key is strictly smaller. *)
Fixpoint insert_by (key : A -> Z) (x : A) (l : list A) : list A :=
  match l with
  | [] => [x]
  | y :: l' => if key y <? key x then y :: insert_by key x l' else x :: y :: l'
  end.

Fixpoint sorted (key : A -> Z) (xs : list A) : list A :=
  match xs with
  | [] => []
  | x :: xs' => insert_by key x (sorted key xs')
  end.

(** [itertools.groupby(xs, key=key)], every group materialised.  A group is
    opened by an element, carries the key of that element, and takes the
    following elements for as long as their key equals the key of the group.
    [groupby_from k xs] returns the rest of the group whose key is [k] and the
    groups that follow it. *)
Fixpoint groupby_from {K : Type} (eqb : K -> K -> bool) (key : A -> K)
    (k : K) (xs : list A) : list A * list (K * list A) :=
  match xs with
  | [] => ([], [])
  | x :: xs' =>
      if eqb (key x) k
      then let (g, rest) := groupby_from eqb key k xs' in (x :: g, rest)
      else let (g, rest) := groupby_from eqb key (key x) xs' in
           ([], (key x, x :: g) :: rest)
  end.

Definition groupby {K : Type} (eqb : K -> K -> bool) (key : A -> K)
    (xs : list A) : list (K * list A) :=
  match xs with
  | [] => []
  | x :: xs' =>
      let (g, rest) := groupby_from eqb key (key x) xs' in (key x, x :: g) :: rest
  end.

End Builtins.

(** [sum(...)] over integers. *)
Definition sum (xs : list Z) : Z := fold_right Z.add 0 xs.

(** The decimal digits of the absolute value of an integer. *)
Definition digits (n : Z) : string :=
  NilZero.string_of_uint (N.to_uint (Z.to_N (Z.abs n))).

Fixpoint zeros (n : nat) : string :=
  match n with
  | O => EmptyString
  | S n' => String "0" (zeros n')
  end.

(** [format(n, '0wd')]: the digits, padded with zeros after the sign to a
    width of [w] characters at least (the sign counts towards the width). *)
Definition format_0d (w : nat) (n : Z) : string :=
  let d := digits n in
  if n <? 0
  then String "-" (zeros (w - 1 - String.length d) ++ d)
  else (zeros (w - String.length d) ++ d)%string.

Definition format_05d (n : Z) : string := format_0d 5 n.

(** [str(n)] *)
Definition str_int (n : Z) : string :=
  if n <? 0 then String "-" (digits n) else digits n.

(** [len(s)]: the number of code points, that is, of the bytes of the UTF-8
    text that are not continuation bytes (those of the form [10xxxxxx]). *)
Definition is_continuation (c : ascii) : bool :=
  match c with
  | Ascii _ _ _ _ _ _ b6 b7 => b7 && negb b6
  end.

Fixpoint len (s : string) : nat :=
  match s with
  | EmptyString => O
  | String c s' => if is_continuation c then len s' else S (len s')
  end.

Fixpoint spaces (n : nat) : string :=
  match n with
  | O => EmptyString
  | S n' => String " " (spaces n')
  end.

(** [format(s, '<w')] and [format(s, '>w')] *)
Definition ljust (w : nat) (s : string) : string := (s ++ spaces (w - len s))%string.
Definition rjust (w : nat) (s : string) : string := (spaces (w - len s) ++ s)%string.

(** The line feed. *)
Definition nl : string := String "010" EmptyString.

(** [s.split(sep)] for a separator of one character. *)
Fixpoint split (sep : ascii) (s : string) : list string :=
  match s with
  | EmptyString => [EmptyString]
  | String c s' =>
      if Ascii.eqb c sep then EmptyString :: split sep s'
      else match split sep s' with
           | [] => [String c EmptyString]
           | campo :: campos => String c campo :: campos
           end
  end.

(** [f.readlines()]: the lines of a text, each with the line feed that ends
    it. *)
Fixpoint readlines (s : string) : list string :=
  match s with
  | EmptyString => []
  | String c s' =>
      if Ascii.eqb c "010" then String c EmptyString :: readlines s'
      else match readlines s' with
           | [] => [String c EmptyString]
           | linha :: linhas => String c linha :: linhas
           end
  end.

(** All the results of a list of fallible steps, or nothing if one fails. *)
Fixpoint traverse {A B : Type} (f : A -> option B) (xs : list A) : option (list B) :=
  match xs with
  | [] => Some []
  | x :: xs' =>
      match f x with
      | None => None
      | Some y => match traverse f xs' with
                  | None => None
                  | Some ys => Some (y :: ys)
                  end
      end
  end.

(** What a group of [groupby] is: a key and a non-empty run of elements
    that carry it. *)
Definition group_ok {A K : Type} (key : A -> K) (kg : K * list A) : Prop :=
  snd kg <> [] /\ Forall (fun x => key x = fst kg) (snd kg).

(** The group of a key in a list sorted by [rank] of the key: the elements of
    that rank, in their order. *)
Definition group_of {A K : Type} (key : A -> K) (rank : K -> Z) (xs : list A)
    (kg : K * list A) : Prop :=
  snd kg <> []
  /\ snd kg = filter (fun x => rank (key x) =? rank (fst kg)) xs
  /\ In (fst kg) (map key xs).

End Py.

(** ** Data model *)

Module Entrada.

(** [_Produto] *)
Record _Produto : Type := mk_Produto {
  codigo : Z;
  qtd_estoque : Z;
  qtd_min_co : Z
}.

(** [_SituacaoVenda(IntEnum)] *)
Inductive _SituacaoVenda : Type :=
| CONFIRMADA_PGTO_OK
| CONFIRMADA_PGTO_PENDENTE
| CANCELADA
| NAO_FINALIZADA
| ERRO_NAO_IDENTIFICADO.

Definition situacao_value (s : _SituacaoVenda) : Z :=
  match s with
  | CONFIRMADA_PGTO_OK => 100
  | CONFIRMADA_PGTO_PENDENTE => 102
  | CANCELADA => 135
  | NAO_FINALIZADA => 190
  | ERRO_NAO_IDENTIFICADO => 999
  end.

Definition is_confirmada (s : _SituacaoVenda) : bool :=
  match s with
  | CONFIRMADA_PGTO_OK | CONFIRMADA_PGTO_PENDENTE => true
  | _ => false
  end.

Definition msg_erro (s : _SituacaoVenda) : string :=
  match s with
  | CANCELADA => "Venda cancelada"
  | NAO_FINALIZADA => "Venda não finalizada"
  | ERRO_NAO_IDENTIFICADO => "Erro desconhecido. Acionar equipe de TI."
  | _ => "N/A"
  end.

(** [_CanalVenda(IntEnum)] *)
Inductive _CanalVenda : Type :=
| REPR_COMERCIAL
| WEBSITE
| APP_ANDROID
| APP_IOS.

Definition canal_value (c : _CanalVenda) : Z :=
  match c with
  | REPR_COMERCIAL => 1
  | WEBSITE => 2
  | APP_ANDROID => 3
  | APP_IOS => 4
  end.

Definition descricao (c : _CanalVenda) : string :=
  match c with
  | REPR_COMERCIAL => "Representantes"
  | WEBSITE => "Website"
  | APP_ANDROID => "App móvel Android"
  | APP_IOS => "App móvel iPhone"
  end.

(** Equality of two members of an [IntEnum] is equality of their values. *)
Definition canal_eqb (c d : _CanalVenda) : bool := canal_value c =? canal_value d.

(** [_Venda] *)
Record _Venda : Type := mk_Venda {
  cod_produto : Z;
  qtd : Z;
  situacao : _SituacaoVenda;
  canal : _CanalVenda
}.

(** [_VendasPorProduto] *)
Record _VendasPorProduto : Type := mk_VendasPorProduto {
  index : nat;
  produto : _Produto;
  vendas : list _Venda
}.

(** The [__eq__] that [@dataclass] generates compares the fields in order. *)
Definition produto_eqb (p q : _Produto) : bool :=
  (codigo p =? codigo q) && (qtd_estoque p =? qtd_estoque q)
  && (qtd_min_co p =? qtd_min_co q).

Definition situacao_eqb (s t : _SituacaoVenda) : bool :=
  situacao_value s =? situacao_value t.

Definition venda_eqb (v w : _Venda) : bool :=
  (cod_produto v =? cod_produto w) && (qtd v =? qtd w)
  && situacao_eqb (situacao v) (situacao w) && canal_eqb (canal v) (canal w).

Fixpoint vendas_eqb (vs ws : list _Venda) : bool :=
  match vs, ws with
  | [], [] => true
  | v :: vs', w :: ws' => venda_eqb v w && vendas_eqb vs' ws'
  | _, _ => false
  end.

Definition vendas_por_produto_eqb (a b : _VendasPorProduto) : bool :=
  Nat.eqb (index a) (index b) && produto_eqb (produto a) (produto b)
  && vendas_eqb (vendas a) (vendas b).

End Entrada.

Export Entrada.

(** ** Transfer needs: [_NecessidadeTransferencia] *)

Module NecessidadeTransferencia.

Definition __NE_LO : Z := 1.
Definition __NE_HI : Z := 10.
Definition __NE_ESP : Z := 10.

Record t : Type := mk {
  cod_produto : Z;
  qtd_produto_co : Z;
  qtd_min_produto_co : Z;
  qtd_vendas : Z;
  qtd_estoque_pos_vendas : Z;
  qtd_necessidade : Z;
  qtd_transf_arm_co : Z
}.

(** The generator handed to the first [sorted]: for every sale, in order,
    every product, in order, whose code is the sale's and whose sale is
    confirmed. *)
Definition vendas_produtos_join (produtos : list _Produto) (vendas : list _Venda)
  : list _VendasPorProduto :=
  flat_map (fun v =>
    flat_map (fun ip : nat * _Produto =>
      let (i, p) := ip in
      if (Entrada.cod_produto v =? codigo p) && is_confirmada (situacao v)
      then [mk_VendasPorProduto i p [v]] else [])
    (Py.enumerate produtos))
  vendas.

Definition vendas_produtos_raw (produtos : list _Produto) (vendas : list _Venda)
  : list _VendasPorProduto :=
  Py.sorted (fun vp => codigo (produto vp)) (vendas_produtos_join produtos vendas).

Definition vendas_produtos_agrupados (produtos : list _Produto) (vendas : list _Venda)
  : list _VendasPorProduto :=
  map (fun g : _VendasPorProduto * list _VendasPorProduto =>
         let (rvp, vps) := g in
         mk_VendasPorProduto (index rvp) (produto rvp)
           (concat (map Entrada.vendas vps)))
      (Py.groupby vendas_por_produto_eqb
         (fun vp => mk_VendasPorProduto (index vp) (produto vp) [])
         (vendas_produtos_raw produtos vendas)).

Definition vendas_produtos_ordem_original (produtos : list _Produto)
    (vendas : list _Venda) : list _VendasPorProduto :=
  Py.sorted (fun vp => Z.of_nat (index vp)) (vendas_produtos_agrupados produtos vendas).

(** The record built for one group. *)
Definition gerar (vp : _VendasPorProduto) : t :=
  let qtd_vendas := Py.sum (map qtd (vendas vp)) in
  let est_pos_venda := qtd_estoque (produto vp) - qtd_vendas in
  let ne := Z.abs (Z.max (qtd_min_co (produto vp) - est_pos_venda) 0) in
  mk (codigo (produto vp))
     (qtd_estoque (produto vp))
     (qtd_min_co (produto vp))
     qtd_vendas
     est_pos_venda
     ne
     (if (__NE_LO <? ne) && (ne <? __NE_HI) then __NE_ESP else ne).

(** [multigerar]: the caller passes two tuples, which the generators walk
    over as often as they need; the records come out in the order of the
    last [sorted]. *)
Definition multigerar (produtos : list _Produto) (vendas : list _Venda) : list t :=
  map gerar (vendas_produtos_ordem_original produtos vendas).

End NecessidadeTransferencia.

(** ** Divergences: [_Divergencia] *)

Module Divergencia.

Definition __MSG_SEM_COD : string := "Código de Produto não encontrado".

Record t : Type := mk {
  num_linha_venda : nat;
  msg_err : string
}.

(** [v.cod_produto not in (p.codigo for p in produtos)] *)
Definition s_produto (produtos : list _Produto) (v : _Venda) : bool :=
  negb (existsb (fun p => cod_produto v =? codigo p) produtos).

Definition multigerar (produtos : list _Produto) (vendas : list _Venda) : list t :=
  flat_map (fun iv : nat * _Venda =>
    let (i, v) := iv in
    let sp := s_produto produtos v in
    if sp || negb (is_confirmada (situacao v))
    then [mk (i + 1)
             (if sp
              then (__MSG_SEM_COD ++ " " ++ Py.format_05d (cod_produto v))%string
              else msg_erro (situacao v))]
    else [])
  (Py.enumerate vendas).

End Divergencia.

(** ** Sales per channel: [_QtdVendasPorCanal] *)

Module QtdVendasPorCanal.

Record t : Type := mk {
  canal : _CanalVenda;
  qtd_vendas : Z
}.

Definition multigerar (vendas : list _Venda) : list t :=
  Py.sorted (fun vpc => canal_value (canal vpc))
    (map (fun g : _CanalVenda * list _Venda =>
            let (canal, vendas) := g in mk canal (Py.sum (map qtd vendas)))
         (Py.groupby canal_eqb Entrada.canal
            (Py.sorted (fun v => canal_value (Entrada.canal v))
               (filter (fun v => is_confirmada (situacao v)) vendas)))).

End QtdVendasPorCanal.

(** ** The run: files, console and entry point *)

Module Sistema.

(** The world of a run: the regular files of the working directory with
    their text, as [open] decodes it, and what was printed so far. *)
Record Mundo : Type := mk_Mundo {
  arquivos : string -> option string;
  stdout : string;
  stderr : string
}.

Inductive Excecao : Type :=
| ValueError
| FileNotFoundError.

Inductive Saida (A : Type) : Type :=
| Ok (a : A)
| Levantou (e : Excecao).

Arguments Ok {A} a.
Arguments Levantou {A} e.

(** Statements: they change the world and return or raise. *)
Definition M (A : Type) : Type := Mundo -> Saida A * Mundo.

Definition ret {A : Type} (a : A) : M A := fun w => (Ok a, w).

Definition bind {A B : Type} (m : M A) (f : A -> M B) : M B :=
  fun w =>
    match m w with
    | (Ok a, w') => f a w'
    | (Levantou e, w') => (Levantou e, w')
    end.

Definition raise {A : Type} (e : Excecao) : M A := fun w => (Levantou e, w).

Notation "x <- m ;; k" := (bind m (fun x => k))
  (at level 61, m at next level, right associativity).
Notation "m ;;; k" := (bind m (fun _ => k))
  (at level 61, right associativity).

(** [path.is_file()] *)
Definition is_file (path : string) : M bool :=
  fun w => (Ok (match arquivos w path with Some _ => true | None => false end), w).

(** [print(s)] and [print(s, file=stderr)] *)
Definition print (s : string) : M unit :=
  fun w => (Ok tt, mk_Mundo (arquivos w) (stdout w ++ s ++ Py.nl) (stderr w)).

Definition print_stderr (s : string) : M unit :=
  fun w => (Ok tt, mk_Mundo (arquivos w) (stdout w) (stderr w ++ s ++ Py.nl)).

(** [path.open()] followed by reading the whole text. *)
Definition ler (path : string) : M string :=
  fun w =>
    match arquivos w path with
    | Some texto => (Ok texto, w)
    | None => (Levantou FileNotFoundError, w)
    end.

(** [path.open('w')] followed by the writes that make up [texto]: the file
    is created or replaced. *)
Definition escrever (path : string) (texto : string) : M unit :=
  fun w =>
    (Ok tt,
     mk_Mundo (fun p => if String.eqb p path then Some texto else arquivos w p)
              (stdout w) (stderr w)).

(** A [ValueError] where a conversion has no result. *)
Definition ou_value_error {A : Type} (o : option A) : M A :=
  match o with
  | Some a => ret a
  | None => raise ValueError
  end.

Definition _MSG_INICIO : string :=
  ("Estoque Operacional" ++ Py.nl
   ++ "Abner Eduardo Ramos Ferreira" ++ Py.nl
   ++ "Fernando Martins de Gouvêa" ++ Py.nl
   ++ "Joilson Briana dos Santos" ++ Py.nl
   ++ "Lucas de Abreu Tondin" ++ Py.nl)%string.

Definition _MSG_ARQUIVO_NAO_ENCONTRADO : string := "Arquivo de teste não encontrado".

Definition _CAMINHO_ARQUIVO_PRODUTOS : string := "produtos.txt".
Definition _CAMINHO_ARQUIVO_VENDAS : string := "vendas.txt".

Definition _CAMINHO_ARQUIVO_TRANSFERENCIAS : string := "transfere.txt".
Definition _CAMINHO_ARQUIVO_DIVERGENCIAS : string := "divergencias.txt".
Definition _CAMINHO_ARQUIVO_VENDAS_POR_CANAL : string := "totcanais.txt".

Definition _DELIMITADOR_DADOS : ascii := ";".

(** [_Resultado] *)
Record _Resultado : Type := mk_Resultado {
  necessidades : list NecessidadeTransferencia.t;
  divergencias : list Divergencia.t;
  vendas_por_canal : list QtdVendasPorCanal.t
}.

(** [_SituacaoVenda(n)] and [_CanalVenda(n)]: the member of that value. *)
Definition _SituacaoVenda_de (n : Z) : option _SituacaoVenda :=
  find (fun s => situacao_value s =? n)
    [CONFIRMADA_PGTO_OK; CONFIRMADA_PGTO_PENDENTE; CANCELADA; NAO_FINALIZADA;
     ERRO_NAO_IDENTIFICADO].

Definition _CanalVenda_de (n : Z) : option _CanalVenda :=
  find (fun c => canal_value c =? n) [REPR_COMERCIAL; WEBSITE; APP_ANDROID; APP_IOS].

Section Execucao.

(** [path.resolve()], which depends on the working directory, and [int(s)]
    on a string, without a result where Python raises [ValueError]. *)
Variable resolve : string -> string.
Variable int : string -> option Z.

Definition _garantir_arquivos_entrada : M bool :=
  fold_left
    (fun (laco : M bool) (path : string) =>
       success <- laco ;;
       presente <- is_file path ;;
       if presente then ret success
       else print_stderr (_MSG_ARQUIVO_NAO_ENCONTRADO ++ ": " ++ resolve path) ;;;
            ret false)
    [_CAMINHO_ARQUIVO_PRODUTOS; _CAMINHO_ARQUIVO_VENDAS]
    (ret true).

(** What the check leaves on [stderr] for one input file: nothing if the file
    is there, the line that reports it otherwise. *)
Definition aviso (w : Mundo) (path : string) : string :=
  match arquivos w path with
  | Some _ => EmptyString
  | None => ((_MSG_ARQUIVO_NAO_ENCONTRADO ++ ": " ++ resolve path) ++ Py.nl)%string
  end.

Definition ler_produto (linha : string) : option _Produto :=
  match Py.split _DELIMITADOR_DADOS linha with
  | [cod; qtd_est; qtd_min] =>
      match int cod, int qtd_est, int qtd_min with
      | Some c, Some e, Some m => Some (mk_Produto c e m)
      | _, _, _ => None
      end
  | _ => None
  end.

Definition ler_venda (linha : string) : option _Venda :=
  match Py.split _DELIMITADOR_DADOS linha with
  | [cod_prd; qtd; sit; can] =>
      match int cod_prd, int qtd, int sit, int can with
      | Some c, Some q, Some s, Some n =>
          match _SituacaoVenda_de s, _CanalVenda_de n with
          | Some situacao, Some canal => Some (mk_Venda c q situacao canal)
          | _, _ => None
          end
      | _, _, _, _ => None
      end
  | _ => None
  end.

Definition _gerar_resultado : M (option _Resultado) :=
  ok <- _garantir_arquivos_entrada ;;
  if negb ok then ret None
  else
    arq_produtos <- ler _CAMINHO_ARQUIVO_PRODUTOS ;;
    arq_vendas <- ler _CAMINHO_ARQUIVO_VENDAS ;;
    produtos <- ou_value_error (Py.traverse ler_produto (Py.readlines arq_produtos)) ;;
    vendas <- ou_value_error (Py.traverse ler_venda (Py.readlines arq_vendas)) ;;
    ret (Some (mk_Resultado
                 (NecessidadeTransferencia.multigerar produtos vendas)
                 (Divergencia.multigerar produtos vendas)
                 (QtdVendasPorCanal.multigerar vendas))).

Definition _salvar_necessidades (necessidades : list NecessidadeTransferencia.t)
  : M unit :=
  escrever _CAMINHO_ARQUIVO_TRANSFERENCIAS
    ("Necessidade de Transferência Armazém para CO" ++ Py.nl ++ Py.nl
     ++ "Produto  QtCO  QtMin  QtVendas  Estq.após  Necess.  Transf. de" ++ Py.nl
     ++ "                                   Vendas            Arm p/ CO" ++ Py.nl
     ++ String.concat ""
          (map (fun n =>
                  Py.ljust 5 (Py.str_int (NecessidadeTransferencia.cod_produto n)) ++ " "
                  ++ Py.rjust 7 (Py.str_int (NecessidadeTransferencia.qtd_produto_co n)) ++ " "
                  ++ Py.rjust 6 (Py.str_int (NecessidadeTransferencia.qtd_min_produto_co n)) ++ " "
                  ++ Py.rjust 9 (Py.str_int (NecessidadeTransferencia.qtd_vendas n)) ++ " "
                  ++ Py.rjust 10 (Py.str_int (NecessidadeTransferencia.qtd_estoque_pos_vendas n)) ++ " "
                  ++ Py.rjust 8 (Py.str_int (NecessidadeTransferencia.qtd_necessidade n)) ++ " "
                  ++ Py.rjust 11 (Py.str_int (NecessidadeTransferencia.qtd_transf_arm_co n))
                  ++ Py.nl)
               necessidades))%string.

Definition _salvar_divergencias (divergencias : list Divergencia.t) : M unit :=
  escrever _CAMINHO_ARQUIVO_DIVERGENCIAS
    (String.concat ""
       (map (fun divergencia =>
               "Linha " ++ Py.format_0d 2 (Z.of_nat (Divergencia.num_linha_venda divergencia))
               ++ " – " ++ Divergencia.msg_err divergencia ++ Py.nl)
            divergencias))%string.

Definition _salvar_vendas_por_canal (vendas_por_canal : list QtdVendasPorCanal.t)
  : M unit :=
  escrever _CAMINHO_ARQUIVO_VENDAS_POR_CANAL
    ("Quantidades de Vendas por canal" ++ Py.nl ++ Py.nl
     ++ Py.ljust 21 "Canal" ++ " " ++ Py.rjust 9 "QtVendas" ++ Py.nl
     ++ String.concat ""
          (map (fun vpc =>
                  Py.ljust 21 (Py.str_int (canal_value (QtdVendasPorCanal.canal vpc))
                               ++ " - " ++ descricao (QtdVendasPorCanal.canal vpc))
                  ++ " " ++ Py.rjust 9 (Py.str_int (QtdVendasPorCanal.qtd_vendas vpc))
                  ++ Py.nl)
               vendas_por_canal))%string.

Definition _main : M unit :=
  print _MSG_INICIO ;;;
  resultado <- _gerar_resultado ;;
  match resultado with
  | None => ret tt
  | Some resultado =>
      _salvar_necessidades (necessidades resultado) ;;;
      _salvar_divergencias (divergencias resultado) ;;;
      _salvar_vendas_por_canal (vendas_por_canal resultado)
  end.

End Execucao.

(** A reader of plain decimal numerals, with an optional sign and an
    optional line feed at the end: what [int] does on such strings (Python's
    [int] reads more), for running the model on examples. *)
Fixpoint sem_nl (s : string) : string :=
  match s with
  | EmptyString => EmptyString
  | String c s' =>
      match s' with
      | EmptyString => if Ascii.eqb c "010" then EmptyString else s
      | _ => String c (sem_nl s')
      end
  end.

Definition int_decimal (s : string) : option Z :=
  match sem_nl s with
  | String "-" d =>
      match NilZero.uint_of_string d with
      | Some u => Some (- Z.of_N (N.of_uint u))
      | None => None
      end
  | d =>
      match NilZero.uint_of_string d with
      | Some u => Some (Z.of_N (N.of_uint u))
      | None => None
      end
  end.

End Sistema.

(** * Facts about the built-ins *)

Section SortedFacts.

Context {A : Type} (key : A -> Z).

Let le_key (a b : A) : Prop := key a <= key b.

Lemma insert_by_perm (x : A) (l : list A) :
  Permutation (Py.insert_by key x l) (x :: l).
Proof.
  induction l as [|y l IH]; simpl.
  - apply Permutation_refl.
  - destruct (key y <? key x).
    + apply perm_trans with (y :: x :: l).
      * now apply perm_skip.
      * apply perm_swap.
    + apply Permutation_refl.
Qed.

Lemma sorted_perm (l : list A) : Permutation (Py.sorted key l) l.
Proof.
  induction l as [|x l IH]; simpl.
  - constructor.
  - apply perm_trans with (x :: Py.sorted key l).
    + apply insert_by_perm.
    + now apply perm_skip.
Qed.

Lemma sorted_In (l : list A) (x : A) : In x (Py.sorted key l) <-> In x l.
Proof.
  split; apply Permutation_in; [|apply Permutation_sym]; apply sorted_perm.
Qed.

Lemma insert_by_sorted (x : A) (l : list A) :
  StronglySorted le_key l -> StronglySorted le_key (Py.insert_by key x l).
Proof.
  induction 1 as [|y l Hs IH Hy]; simpl.
  - repeat constructor.
  - destruct (key y <? key x) eqn:E.
    + constructor; [exact IH|].
      apply Forall_forall. intros z Hz.
      apply (Permutation_in _ (insert_by_perm x l)) in Hz.
      destruct Hz as [<-|Hz].
      * apply Z.ltb_lt in E. unfold le_key. lia.
      * rewrite Forall_forall in Hy. now apply Hy.
    + apply Z.ltb_ge in E.
      constructor; [now constructor|].
      constructor; [exact E|].
      apply Forall_forall. intros z Hz.
      rewrite Forall_forall in Hy. specialize (Hy z Hz).
      unfold le_key in *. lia.
Qed.

Lemma sorted_sorted (l : list A) : StronglySorted le_key (Py.sorted key l).
Proof.
  induction l as [|x l IH]; simpl.
  - constructor.
  - now apply insert_by_sorted.
Qed.

(** A list that is already in key order is returned as it is. *)
Lemma sorted_id (l : list A) : StronglySorted le_key l -> Py.sorted key l = l.
Proof.
  induction 1 as [|x l Hs IH Hx]; simpl; [reflexivity|].
  rewrite IH. destruct l as [|y l]; [reflexivity|]. simpl.
  inversion Hx as [|? ? Hxy _]; subst. unfold le_key in Hxy.
  destruct (key y <? key x) eqn:E; [|reflexivity].
  apply Z.ltb_lt in E. lia.
Qed.

(** Stability: the elements selected by a predicate that pins the key down
    keep their relative order. *)
Lemma insert_by_filter (p : A -> bool) (x : A) (l : list A) :
  (forall a b, p a = true -> p b = true -> key a = key b) ->
  filter p (Py.insert_by key x l) = filter p (x :: l).
Proof.
  intros Hp. induction l as [|y l IH]; [reflexivity|].
  simpl. destruct (key y <? key x) eqn:E; [|reflexivity].
  simpl. rewrite IH. simpl.
  destruct (p x) eqn:Px, (p y) eqn:Py; try reflexivity.
  apply Z.ltb_lt in E. specialize (Hp _ _ Px Py). lia.
Qed.

Lemma sorted_stable (p : A -> bool) (l : list A) :
  (forall a b, p a = true -> p b = true -> key a = key b) ->
  filter p (Py.sorted key l) = filter p l.
Proof.
  intros Hp. induction l as [|x l IH]; [reflexivity|].
  simpl Py.sorted. rewrite insert_by_filter by exact Hp.
  simpl. now rewrite IH.
Qed.

End SortedFacts.

(** [sum] does not depend on the order of the summands. *)
Lemma sum_perm (l l' : list Z) : Permutation l l' -> Py.sum l = Py.sum l'.
Proof.
  induction 1; simpl; lia.
Qed.

Lemma sum_app (l l' : list Z) : Py.sum (l ++ l') = Py.sum l + Py.sum l'.
Proof.
  induction l; simpl; lia.
Qed.

Section GroupbyFacts.

Context {A K : Type} (eqb : K -> K -> bool) (key : A -> K).

Hypothesis eqb_eq : forall a b, eqb a b = true <-> a = b.

Lemma groupby_from_concat (k : K) (xs : list A) :
  fst (Py.groupby_from eqb key k xs)
    ++ concat (map snd (snd (Py.groupby_from eqb key k xs))) = xs.
Proof.
  revert k. induction xs as [|x xs IH]; intros k; simpl; [reflexivity|].
  destruct (eqb (key x) k).
  - specialize (IH k). destruct (Py.groupby_from eqb key k xs) as [g rest].
    simpl in *. now rewrite IH.
  - specialize (IH (key x)).
    destruct (Py.groupby_from eqb key (key x) xs) as [g rest].
    simpl in *. now rewrite IH.
Qed.

(** The groups, put end to end, are the grouped list. *)
Lemma groupby_concat (xs : list A) :
  concat (map snd (Py.groupby eqb key xs)) = xs.
Proof.
  destruct xs as [|x xs]; [reflexivity|]. unfold Py.groupby.
  pose proof (groupby_from_concat (key x) xs) as H.
  destruct (Py.groupby_from eqb key (key x) xs) as [g rest].
  simpl in *. now rewrite H.
Qed.

Lemma groupby_from_ok (k : K) (xs : list A) :
  Forall (fun x => key x = k) (fst (Py.groupby_from eqb key k xs))
  /\ Forall (Py.group_ok key) (snd (Py.groupby_from eqb key k xs)).
Proof.
  revert k. induction xs as [|x xs IH]; intros k; simpl; [split; constructor|].
  destruct (eqb (key x) k) eqn:E.
  - apply eqb_eq in E. specialize (IH k).
    destruct (Py.groupby_from eqb key k xs) as [g rest].
    simpl in *. destruct IH as [IH1 IH2]. split; [constructor|]; assumption.
  - specialize (IH (key x)).
    destruct (Py.groupby_from eqb key (key x) xs) as [g rest].
    simpl in *. destruct IH as [IH1 IH2]. split; [constructor|].
    constructor; [|assumption].
    split; simpl; [discriminate|]. now constructor.
Qed.

Lemma groupby_ok (xs : list A) : Forall (Py.group_ok key) (Py.groupby eqb key xs).
Proof.
  destruct xs as [|x xs]; [constructor|]. unfold Py.groupby.
  pose proof (groupby_from_ok (key x) xs) as H.
  destruct (Py.groupby_from eqb key (key x) xs) as [g rest].
  simpl in *. destruct H as [H1 H2].
  constructor; [|assumption].
  split; simpl; [discriminate|]. now constructor.
Qed.

(** Every element of the list sits in a group that carries its key. *)
Lemma groupby_In (xs : list A) (x : A) :
  In x xs -> exists g, In (key x, g) (Py.groupby eqb key xs) /\ In x g.
Proof.
  intros Hx. rewrite <- (groupby_concat xs) in Hx.
  apply in_concat in Hx. destruct Hx as [g [Hg Hxg]].
  apply in_map_iff in Hg. destruct Hg as [[k g'] [Heq Hkg]]. simpl in Heq. subst g'.
  pose proof (groupby_ok xs) as Hok. rewrite Forall_forall in Hok.
  destruct (Hok _ Hkg) as [_ Hall]. simpl in Hall.
  rewrite Forall_forall in Hall. specialize (Hall _ Hxg). subst k.
  now exists g.
Qed.

(** Every element of a group comes from the list and carries the group's key. *)
Lemma groupby_group_In (xs : list A) (k : K) (g : list A) (x : A) :
  In (k, g) (Py.groupby eqb key xs) -> In x g -> In x xs /\ key x = k.
Proof.
  intros Hkg Hx. split.
  - rewrite <- (groupby_concat xs). apply in_concat. exists g. split; [|assumption].
    apply in_map_iff. now exists (k, g).
  - pose proof (groupby_ok xs) as Hok. rewrite Forall_forall in Hok.
    destruct (Hok _ Hkg) as [_ Hall]. simpl in Hall.
    rewrite Forall_forall in Hall. now apply Hall.
Qed.

(** *** Grouping a list that was sorted on (a function of) the grouping key *)

Variable rank : K -> Z.
Variable dom : K -> Prop.

(** On the keys that occur, the rank tells the keys apart. *)
Hypothesis rank_inj : forall a b, dom a -> dom b -> rank a = rank b -> a = b.

Lemma filter_none (p : A -> bool) (xs : list A) :
  Forall (fun x => p x = false) xs -> filter p xs = [].
Proof.
  induction 1 as [|x xs Hx _ IH]; simpl; [reflexivity|]. now rewrite Hx.
Qed.

Lemma groupby_from_sorted (k : K) (xs : list A) :
  dom k ->
  Forall (fun x => dom (key x)) xs ->
  Forall (fun x => rank k <= rank (key x)) xs ->
  StronglySorted (fun a b => rank (key a) <= rank (key b)) xs ->
  let r := Py.groupby_from eqb key k xs in
  fst r = filter (fun x => rank (key x) =? rank k) xs
  /\ Forall (Py.group_of key rank xs) (snd r)
  /\ Forall (fun kg => rank k < rank (fst kg)) (snd r)
  /\ StronglySorted Z.lt (map (fun kg => rank (fst kg)) (snd r)).
Proof.
  revert k. induction xs as [|x xs IH]; intros k Dk Dxs Hlo Hs; simpl.
  - repeat split; constructor.
  - inversion Dxs as [|? ? Dx Dxs']; subst.
    inversion Hlo as [|? ? Hx Hlo']; subst.
    inversion Hs as [|? ? Hs' Hxs]; subst.
    destruct (eqb (key x) k) eqn:E.
    + apply eqb_eq in E. subst k.
      specialize (IH (key x) Dx Dxs' Hlo' Hs').
      destruct (Py.groupby_from eqb key (key x) xs) as [g rest].
      simpl in *. destruct IH as (IH1 & IH2 & IH3 & IH4).
      rewrite Z.eqb_refl. repeat split; try assumption.
      * now rewrite IH1.
      * rewrite Forall_forall in *. intros kg Hkg.
        destruct (IH2 _ Hkg) as (N & F & I). specialize (IH3 _ Hkg).
        split; [assumption|]. split; [|now right].
        simpl. destruct (rank (key x) =? rank (fst kg)) eqn:E'; [|assumption].
        apply Z.eqb_eq in E'. lia.
    + assert (Hlt : rank k < rank (key x)).
      { destruct (Z.eq_dec (rank k) (rank (key x))) as [e|n]; [|lia].
        apply rank_inj in e; try assumption. subst k.
        assert (eqb (key x) (key x) = true) by now apply eqb_eq. congruence. }
      specialize (IH (key x) Dx Dxs' Hxs Hs').
      destruct (Py.groupby_from eqb key (key x) xs) as [g rest].
      simpl in *. destruct IH as (IH1 & IH2 & IH3 & IH4).
      assert (Hne : (rank (key x) =? rank k) = false) by (apply Z.eqb_neq; lia).
      rewrite Hne. repeat split.
      * symmetry. apply filter_none. rewrite Forall_forall in *. intros y Hy.
        specialize (Hxs _ Hy). apply Z.eqb_neq. lia.
      * constructor.
        -- split; simpl; [discriminate|]. rewrite Z.eqb_refl. split; [now rewrite IH1|now left].
        -- rewrite Forall_forall in *. intros kg Hkg.
           destruct (IH2 _ Hkg) as (N & F & I). specialize (IH3 _ Hkg).
           split; [assumption|]. split; [|now right].
           simpl. destruct (rank (key x) =? rank (fst kg)) eqn:E'; [|assumption].
           apply Z.eqb_eq in E'. lia.
      * constructor; [assumption|].
        rewrite Forall_forall in *. intros kg Hkg. specialize (IH3 _ Hkg). lia.
      * simpl. constructor; [assumption|].
        rewrite Forall_forall in *. intros z Hz.
        apply in_map_iff in Hz. destruct Hz as [kg [<- Hkg]]. now apply IH3.
Qed.

(** The groups of a sorted list: strictly increasing ranks, and the group
    of a key holds exactly the elements of that rank, in their order. *)
Lemma groupby_sorted (xs : list A) :
  Forall (fun x => dom (key x)) xs ->
  StronglySorted (fun a b => rank (key a) <= rank (key b)) xs ->
  Forall (Py.group_of key rank xs) (Py.groupby eqb key xs)
  /\ StronglySorted Z.lt (map (fun kg => rank (fst kg)) (Py.groupby eqb key xs)).
Proof.
  intros Dxs Hs. destruct xs as [|x xs]; [split; constructor|].
  inversion Dxs as [|? ? Dx Dxs']; subst.
  inversion Hs as [|? ? Hs' Hxs]; subst.
  unfold Py.groupby.
  pose proof (groupby_from_sorted (key x) xs Dx Dxs' Hxs Hs') as H.
  destruct (Py.groupby_from eqb key (key x) xs) as [g rest].
  simpl in H. destruct H as (H1 & H2 & H3 & H4). split.
  - constructor.
    + split; simpl; [discriminate|]. rewrite Z.eqb_refl. split; [now rewrite H1|now left].
    + rewrite Forall_forall in *. intros kg Hkg.
      destruct (H2 _ Hkg) as (N & F & I). specialize (H3 _ Hkg).
      split; [assumption|]. split; [|now right].
      simpl. destruct (rank (key x) =? rank (fst kg)) eqn:E'; [|assumption].
      apply Z.eqb_eq in E'. lia.
  - simpl. constructor; [assumption|].
    rewrite Forall_forall in *. intros z Hz.
    apply in_map_iff in Hz. destruct Hz as [kg [<- Hkg]]. now apply H3.
Qed.

End GroupbyFacts.

Lemma filter_and {A : Type} (p q : A -> bool) (l : list A) :
  filter p (filter q l) = filter (fun x => q x && p x) l.
Proof.
  induction l as [|x l IH]; simpl; [reflexivity|].
  destruct (q x); simpl; [destruct (p x)|]; now rewrite IH.
Qed.

Lemma strictly_sorted_weaken {A : Type} (f : A -> Z) (l : list A) :
  StronglySorted Z.lt (map f l) -> StronglySorted (fun a b => f a <= f b) l.
Proof.
  induction l as [|x l IH]; simpl; intros H; [constructor|].
  inversion H as [|? ? Hs Hx]; subst. constructor; [now apply IH|].
  rewrite Forall_forall in *. intros y Hy.
  assert (f x < f y) by (apply Hx; now apply in_map). lia.
Qed.

(** * Facts about the data model *)

Lemma enumerate_from_In {A : Type} (n : nat) (xs : list A) (i : nat) (x : A) :
  In (i, x) (Py.enumerate_from n xs) <-> (n <= i)%nat /\ nth_error xs (i - n) = Some x.
Proof.
  revert n. induction xs as [|y xs IH]; intros n; simpl.
  - split; [tauto|]. intros [_ H]. destruct (i - n)%nat; discriminate H.
  - rewrite IH. split.
    + intros [H|[Hle H]].
      * inversion H; subst. split; [lia|]. now rewrite Nat.sub_diag.
      * split; [lia|]. replace (i - n)%nat with (S (i - S n)) by lia. exact H.
    + intros [Hle H]. destruct (Nat.eq_dec i n) as [->|Hne].
      * rewrite Nat.sub_diag in H. simpl in H. left. congruence.
      * right. split; [lia|].
        replace (i - n)%nat with (S (i - S n)) in H by lia. exact H.
Qed.

Lemma enumerate_In {A : Type} (xs : list A) (i : nat) (x : A) :
  In (i, x) (Py.enumerate xs) <-> nth_error xs i = Some x.
Proof.
  unfold Py.enumerate. rewrite enumerate_from_In, Nat.sub_0_r.
  split; [tauto|]. intros H. split; [lia|exact H].
Qed.

Lemma produto_eqb_eq (p q : _Produto) : produto_eqb p q = true <-> p = q.
Proof.
  destruct p, q. unfold produto_eqb. simpl.
  rewrite !andb_true_iff, !Z.eqb_eq. split.
  - intros [[-> ->] ->]. reflexivity.
  - intros H. inversion H. auto.
Qed.

Lemma situacao_eqb_eq (s t : _SituacaoVenda) : situacao_eqb s t = true <-> s = t.
Proof.
  destruct s, t; split; intros H; try reflexivity; discriminate H.
Qed.

Lemma canal_eqb_eq (c d : _CanalVenda) : canal_eqb c d = true <-> c = d.
Proof.
  destruct c, d; split; intros H; try reflexivity; discriminate H.
Qed.

Lemma venda_eqb_eq (v w : _Venda) : venda_eqb v w = true <-> v = w.
Proof.
  destruct v, w. unfold venda_eqb. simpl.
  rewrite !andb_true_iff, !Z.eqb_eq, situacao_eqb_eq, canal_eqb_eq. split.
  - intros [[[-> ->] ->] ->]. reflexivity.
  - intros H. inversion H. auto.
Qed.

Lemma vendas_eqb_eq (vs ws : list _Venda) : vendas_eqb vs ws = true <-> vs = ws.
Proof.
  revert ws. induction vs as [|v vs IH]; intros [|w ws]; simpl;
    try (split; [discriminate|discriminate]); [tauto|].
  rewrite andb_true_iff, venda_eqb_eq, IH. split.
  - intros [-> ->]. reflexivity.
  - intros H. inversion H. auto.
Qed.

Lemma vendas_por_produto_eqb_eq (a b : _VendasPorProduto) :
  vendas_por_produto_eqb a b = true <-> a = b.
Proof.
  destruct a, b. unfold vendas_por_produto_eqb. simpl.
  rewrite !andb_true_iff, Nat.eqb_eq, produto_eqb_eq, vendas_eqb_eq. split.
  - intros [[-> ->] ->]. reflexivity.
  - intros H. inversion H. auto.
Qed.


(** The label of a channel in the channel report, its value, a dash and its
    description, fits the 21 columns of its field, so the field is 21
    characters wide on every line. *)
Theorem canal_rotulo_largura (c : _CanalVenda) :
  (Py.len (Py.str_int (canal_value c) ++ " - " ++ descricao c) <= 21)%nat
  /\ Py.len (Py.ljust 21 (Py.str_int (canal_value c) ++ " - " ++ descricao c)) = 21%nat.
Proof.
  destruct c; split; vm_compute; try reflexivity; repeat constructor.
Qed.

(** Two lists in strictly increasing order of a key that have the same
    elements are the same list. *)
Lemma strictly_sorted_ext {A : Type} (f : A -> Z) (l1 l2 : list A) :
  StronglySorted Z.lt (map f l1) ->
  StronglySorted Z.lt (map f l2) ->
  (forall x, In x l1 <-> In x l2) ->
  l1 = l2.
Proof.
  revert l2. induction l1 as [|x l1 IH]; intros [|y l2] H1 H2 Hin.
  - reflexivity.
  - exfalso. apply (proj2 (Hin y)). now left.
  - exfalso. apply (proj1 (Hin x)). now left.
  - simpl in H1, H2.
    inversion H1 as [|? ? H1' Hx]; subst. inversion H2 as [|? ? H2' Hy]; subst.
    rewrite Forall_forall in Hx, Hy.
    assert (Hlt1 : forall z, In z l1 -> f x < f z)
      by (intros z Hz; apply Hx; now apply in_map).
    assert (Hlt2 : forall z, In z l2 -> f y < f z)
      by (intros z Hz; apply Hy; now apply in_map).
    assert (x = y).
    { destruct (proj1 (Hin x) (or_introl eq_refl)) as [e|Hx2]; [now symmetry|].
      destruct (proj2 (Hin y) (or_introl eq_refl)) as [e|Hy1]; [exact e|].
      specialize (Hlt1 _ Hy1). specialize (Hlt2 _ Hx2). lia. }
    subst y. f_equal. apply IH; try assumption.
    intros z. split; intros Hz.
    + destruct (proj1 (Hin z) (or_intror Hz)) as [e|Hz2]; [|exact Hz2].
      subst z. specialize (Hlt1 _ Hz). lia.
    + destruct (proj2 (Hin z) (or_intror Hz)) as [e|Hz1]; [|exact Hz1].
      subst z. specialize (Hlt2 _ Hz). lia.
Qed.

(** * Formatting *)

Lemma string_length_app (s t : string) :
  String.length (s ++ t) = (String.length s + String.length t)%nat.
Proof. induction s as [|c s IH]; simpl; [reflexivity|now rewrite IH]. Qed.

Lemma zeros_length (n : nat) : String.length (Py.zeros n) = n.
Proof. induction n as [|n IH]; simpl; [reflexivity|now rewrite IH]. Qed.

(** The [05d] format never yields fewer than five characters. *)
Lemma format_05d_width (n : Z) : (5 <= String.length (Py.format_05d n))%nat.
Proof.
  unfold Py.format_05d, Py.format_0d.
  generalize (Py.digits n). intros d. cbv zeta.
  destruct (n <? 0).
  - change (5 <= S (String.length (Py.zeros (5 - 1 - String.length d) ++ d)))%nat.
    rewrite string_length_app, zeros_length. lia.
  - rewrite string_length_app, zeros_length. lia.
Qed.

Example format_05d_999 : Py.format_05d 999 = "00999"%string.
Proof. reflexivity. Qed.

Example format_05d_negative : Py.format_05d (-5) = "-0005"%string.
Proof. reflexivity. Qed.

Example format_05d_wide : Py.format_05d 123456 = "123456"%string.
Proof. reflexivity. Qed.

Example len_code_points : Py.len "App móvel Android" = 17%nat.
Proof. reflexivity. Qed.

(** * Sales per channel *)

Section QtdVendasPorCanalFacts.

Import QtdVendasPorCanal.

(** The confirmed sales, in channel order, and their groups. *)
Let confirmadas (vs : list _Venda) : list _Venda :=
  Py.sorted (fun v => canal_value (Entrada.canal v))
    (filter (fun v => is_confirmada (situacao v)) vs).

Let grupos (vs : list _Venda) : list (_CanalVenda * list _Venda) :=
  Py.groupby canal_eqb Entrada.canal (confirmadas vs).

Let registro (g : _CanalVenda * list _Venda) : t :=
  let (canal, vendas) := g in mk canal (Py.sum (map qtd vendas)).

Lemma grupos_spec (vs : list _Venda) :
  Forall (Py.group_of Entrada.canal canal_value (confirmadas vs)) (grupos vs)
  /\ StronglySorted Z.lt (map (fun kg => canal_value (fst kg)) (grupos vs)).
Proof.
  apply (groupby_sorted canal_eqb Entrada.canal canal_eqb_eq canal_value (fun _ => True)).
  - intros a b _ _. destruct a, b; simpl; intros H; try reflexivity; discriminate H.
  - apply Forall_forall. intros; exact I.
  - apply (sorted_sorted (fun v => canal_value (Entrada.canal v))).
Qed.

(** The last [sorted] of [multigerar] finds the records already in order. *)
Lemma multigerar_unfold (vs : list _Venda) :
  multigerar vs = map registro (grupos vs).
Proof.
  unfold multigerar. fold (confirmadas vs). fold (grupos vs).
  change (fun g : _CanalVenda * list _Venda =>
            let (canal, vendas) := g in mk canal (Py.sum (map qtd vendas)))
    with registro.
  apply sorted_id. apply strictly_sorted_weaken.
  rewrite map_map. destruct (grupos_spec vs) as [_ Hs].
  erewrite map_ext; [exact Hs|]. intros [c g]. reflexivity.
Qed.

(** C8.  The channel report has a record for a channel exactly when some
    confirmed sale was made through it; the quantity of a record is the sum
    of the quantities of the confirmed sales of its channel; and the records
    come in strictly increasing order of the channel's integer value, hence
    one record per channel at most. *)
Theorem qtd_vendas_por_canal_multigerar_spec (vs : list _Venda) :
  (forall c : _CanalVenda,
      In c (map canal (multigerar vs)) <->
      exists v, In v vs /\ is_confirmada (situacao v) = true /\ Entrada.canal v = c)
  /\ (forall r : t,
      In r (multigerar vs) ->
      qtd_vendas r =
      Py.sum (map qtd (filter (fun v => is_confirmada (situacao v)
                                        && canal_eqb (Entrada.canal v) (canal r)) vs)))
  /\ StronglySorted Z.lt (map (fun r => canal_value (canal r)) (multigerar vs)).
Proof.
  rewrite multigerar_unfold.
  destruct (grupos_spec vs) as [Hg Hs]. rewrite Forall_forall in Hg.
  split; [|split].
  - intros c. rewrite map_map. split.
    + intros Hc. apply in_map_iff in Hc. destruct Hc as [[k g] [Hk Hkg]].
      simpl in Hk. subst k.
      destruct (Hg _ Hkg) as (_ & _ & Hin). simpl in Hin.
      apply in_map_iff in Hin. destruct Hin as [v [Hv Hin]].
      apply sorted_In in Hin. apply filter_In in Hin. destruct Hin as [Hin Hconf].
      now exists v.
    + intros [v (Hin & Hconf & Hc)]. subst c.
      assert (Hx : In v (confirmadas vs)).
      { apply sorted_In. apply filter_In. now split. }
      destruct (groupby_In canal_eqb Entrada.canal canal_eqb_eq _ _ Hx) as [g [Hkg _]].
      apply in_map_iff. exists (Entrada.canal v, g). split; [reflexivity|exact Hkg].
  - intros r Hr. apply in_map_iff in Hr. destruct Hr as [[k g] [<- Hkg]].
    destruct (Hg _ Hkg) as (_ & Hf & _). simpl in *. rewrite Hf.
    unfold confirmadas. rewrite sorted_stable.
    + now rewrite filter_and.
    + intros a b Ha Hb. apply Z.eqb_eq in Ha, Hb. congruence.
  - rewrite map_map. erewrite map_ext; [exact Hs|]. intros [c g]. reflexivity.
Qed.

(** *** The report as one pass over the channels *)

Lemma grupo_de_canal (vs : list _Venda) (c : _CanalVenda) (g : list _Venda) :
  In (c, g) (grupos vs) ->
  g <> [] /\ g = filter (fun v => is_confirmada (situacao v)
                                  && canal_eqb (Entrada.canal v) c) vs.
Proof.
  intros Hkg. destruct (grupos_spec vs) as [Hg _]. rewrite Forall_forall in Hg.
  destruct (Hg _ Hkg) as (Hne & Hf & _). simpl in *. split; [exact Hne|].
  rewrite Hf. unfold confirmadas. rewrite sorted_stable.
  - now rewrite filter_and.
  - intros a b Ha Hb. apply Z.eqb_eq in Ha, Hb. congruence.
Qed.

Lemma canal_com_venda (vs : list _Venda) (v : _Venda) :
  In v vs -> is_confirmada (situacao v) = true ->
  exists g, In (Entrada.canal v, g) (grupos vs).
Proof.
  intros Hin Hconf.
  assert (Hx : In v (confirmadas vs)).
  { apply sorted_In. apply filter_In. now split. }
  destruct (groupby_In canal_eqb Entrada.canal canal_eqb_eq _ _ Hx) as [g [Hkg _]].
  now exists g.
Qed.

(** The channel report is what one pass over the four channels, in the
    order of their values, gives: a channel without a confirmed sale is
    skipped, any other gets the sum of the quantities of its confirmed
    sales. *)
Theorem qtd_vendas_por_canal_por_canal (vs : list _Venda) :
  multigerar vs
  = flat_map (fun c =>
      match filter (fun v => is_confirmada (situacao v)
                             && canal_eqb (Entrada.canal v) c) vs with
      | [] => []
      | g => [mk c (Py.sum (map qtd g))]
      end)
    [REPR_COMERCIAL; WEBSITE; APP_ANDROID; APP_IOS].
Proof.
  rewrite multigerar_unfold.
  apply (strictly_sorted_ext (fun r => canal_value (canal r))).
  - destruct (grupos_spec vs) as [_ Hs]. rewrite map_map.
    erewrite map_ext; [exact Hs|]. intros [c g]. reflexivity.
  - simpl.
    destruct (filter _ vs); destruct (filter _ vs); destruct (filter _ vs);
      destruct (filter _ vs); simpl;
      repeat (constructor; [|repeat (constructor; try reflexivity)]); constructor.
  - intros r. rewrite in_map_iff, in_flat_map. split.
    + intros [[c g] [<- Hkg]]. destruct (grupo_de_canal vs c g Hkg) as [Hne Hf].
      exists c. split; [destruct c; simpl; tauto|].
      rewrite <- Hf. destruct g; [contradiction|]. now left.
    + intros [c [_ Hr]].
      destruct (filter (fun v => is_confirmada (situacao v)
                                 && canal_eqb (Entrada.canal v) c) vs)
        as [|v g] eqn:Hf; [contradiction|].
      destruct Hr as [<-|[]].
      assert (Hv : In v (filter (fun v => is_confirmada (situacao v)
                                          && canal_eqb (Entrada.canal v) c) vs))
        by (rewrite Hf; now left).
      apply filter_In in Hv. destruct Hv as [Hin Hb].
      apply andb_true_iff in Hb. destruct Hb as [Hconf Hc].
      apply canal_eqb_eq in Hc.
      destruct (canal_com_venda vs v Hin Hconf) as [g' Hkg]. rewrite Hc in Hkg.
      destruct (grupo_de_canal vs c g' Hkg) as [_ Hg'].
      exists (c, g'). split; [|exact Hkg]. simpl. now rewrite Hg', Hf.
Qed.

(** The quantities of the channel report add up to the quantities of all
    the confirmed sales, whatever their product codes. *)
Theorem qtd_vendas_por_canal_total (vs : list _Venda) :
  Py.sum (map qtd_vendas (multigerar vs))
  = Py.sum (map qtd (filter (fun v => is_confirmada (situacao v)) vs)).
Proof.
  rewrite multigerar_unfold, map_map.
  transitivity (Py.sum (map qtd (concat (map snd (grupos vs))))).
  - generalize (grupos vs). intros gs. induction gs as [|[c g] gs IH]; [reflexivity|].
    simpl. rewrite map_app, sum_app, IH. reflexivity.
  - unfold grupos. rewrite groupby_concat. unfold confirmadas.
    apply sum_perm, Permutation_map, sorted_perm.
Qed.

End QtdVendasPorCanalFacts.

(** Sorting on a key that tells the elements apart puts them in strictly
    increasing order of the key. *)
Lemma sorted_strict {A : Type} (key : A -> Z) (l : list A) :
  NoDup (map key l) -> StronglySorted Z.lt (map key (Py.sorted key l)).
Proof.
  intros Hnd.
  assert (Hnd' : NoDup (map key (Py.sorted key l))).
  { apply (Permutation_NoDup (l := map key l)); [|exact Hnd].
    apply Permutation_map, Permutation_sym, sorted_perm. }
  pose proof (sorted_sorted key l) as Hs.
  induction Hs as [|x xs Hs IH Hx]; simpl; [constructor|].
  simpl in Hnd'. inversion Hnd' as [|? ? Hnotin Hnd'']; subst.
  constructor; [now apply IH|].
  rewrite Forall_forall in *. intros k Hk.
  apply in_map_iff in Hk. destruct Hk as [y [<- Hy]].
  specialize (Hx _ Hy).
  assert (key x <> key y) by (intros e; apply Hnotin; rewrite e; now apply in_map).
  lia.
Qed.

Lemma strictly_sorted_of_nat {A : Type} (f : A -> nat) (l : list A) :
  StronglySorted Z.lt (map (fun x => Z.of_nat (f x)) l) ->
  StronglySorted lt (map f l).
Proof.
  induction l as [|x l IH]; simpl; intros H; [constructor|].
  inversion H as [|? ? Hs Hx]; subst. constructor; [now apply IH|].
  rewrite Forall_forall in *. intros n Hn.
  apply in_map_iff in Hn. destruct Hn as [y [<- Hy]].
  assert (Z.of_nat (f x) < Z.of_nat (f y)).
  { apply Hx. apply in_map_iff. now exists y. }
  lia.
Qed.

Lemma strictly_sorted_NoDup (l : list Z) : StronglySorted Z.lt l -> NoDup l.
Proof.
  induction 1 as [|x l Hs IH Hx]; constructor; [|exact IH].
  intros Hin. rewrite Forall_forall in Hx. specialize (Hx _ Hin). lia.
Qed.

(** * Transfer needs *)

Section NecessidadeFacts.

Import NecessidadeTransferencia.

(** The grouping key of [vendas_produtos_agrupados]. *)
Let chave (vp : _VendasPorProduto) : _VendasPorProduto :=
  mk_VendasPorProduto (index vp) (produto vp) [].

Let grupos (ps : list _Produto) (vs : list _Venda) :=
  Py.groupby vendas_por_produto_eqb chave (vendas_produtos_raw ps vs).

Let agrupar (g : _VendasPorProduto * list _VendasPorProduto) : _VendasPorProduto :=
  let (rvp, vps) := g in
  mk_VendasPorProduto (index rvp) (produto rvp) (concat (map vendas vps)).

Lemma agrupados_unfold (ps : list _Produto) (vs : list _Venda) :
  vendas_produtos_agrupados ps vs = map agrupar (grupos ps vs).
Proof. reflexivity. Qed.

(** The pairs of the join: a confirmed sale next to a product entry that
    carries the sale's code. *)
Lemma join_In (ps : list _Produto) (vs : list _Venda) (x : _VendasPorProduto) :
  In x (vendas_produtos_join ps vs) <->
  exists v, vendas x = [v] /\ In v vs
            /\ nth_error ps (index x) = Some (produto x)
            /\ Entrada.cod_produto v = codigo (produto x)
            /\ is_confirmada (situacao v) = true.
Proof.
  unfold vendas_produtos_join. rewrite in_flat_map. split.
  - intros [v [Hv Hx]]. apply in_flat_map in Hx. destruct Hx as [[i p] [Hip Hx]].
    apply enumerate_In in Hip.
    destruct ((Entrada.cod_produto v =? codigo p) && is_confirmada (situacao v)) eqn:E;
      [|contradiction].
    destruct Hx as [<-|[]]. simpl.
    apply andb_true_iff in E. destruct E as [E1 E2]. apply Z.eqb_eq in E1.
    exists v. auto.
  - intros [v (Hvs & Hv & Hn & Hc & Hconf)]. exists v. split; [exact Hv|].
    apply in_flat_map. exists (index x, produto x). split; [now apply enumerate_In|].
    rewrite Hc, Z.eqb_refl, Hconf. simpl. left.
    destruct x; simpl in *. now subst.
Qed.

Lemma raw_In (ps : list _Produto) (vs : list _Venda) (x : _VendasPorProduto) :
  In x (vendas_produtos_raw ps vs) <-> In x (vendas_produtos_join ps vs).
Proof. apply sorted_In. Qed.

Lemma ordem_original_In (ps : list _Produto) (vs : list _Venda) (vp : _VendasPorProduto) :
  In vp (vendas_produtos_ordem_original ps vs) <->
  exists k g, In (k, g) (grupos ps vs)
              /\ vp = mk_VendasPorProduto (index k) (produto k) (concat (map vendas g)).
Proof.
  unfold vendas_produtos_ordem_original. rewrite sorted_In, agrupados_unfold, in_map_iff.
  split.
  - intros [[k g] [<- H]]. now exists k, g.
  - intros [k [g [H ->]]]. now exists (k, g).
Qed.

(** C1, as the code has it.  A sale is attached to a product entry of the
    grouped join exactly when the sale is confirmed and the entry, at its
    position of the product sequence, carries the sale's product code: every
    product entry with that code receives the sale, the first one and the
    later duplicates alike. *)
Theorem join_every_matching_product (ps : list _Produto) (vs : list _Venda)
    (i : nat) (p : _Produto) (v : _Venda) :
  (exists vp, In vp (vendas_produtos_ordem_original ps vs)
              /\ index vp = i /\ produto vp = p /\ In v (vendas vp))
  <-> (nth_error ps i = Some p /\ In v vs
       /\ Entrada.cod_produto v = codigo p /\ is_confirmada (situacao v) = true).
Proof.
  split.
  - intros [vp (Hvp & <- & <- & Hv)].
    apply ordem_original_In in Hvp. destruct Hvp as [k [g [Hkg ->]]]. simpl in *.
    apply in_concat in Hv. destruct Hv as [l [Hl Hv]].
    apply in_map_iff in Hl. destruct Hl as [x [<- Hx]].
    destruct (groupby_group_In _ _ vendas_por_produto_eqb_eq _ _ _ _ Hkg Hx) as [Hraw Hk].
    apply raw_In, join_In in Hraw.
    destruct Hraw as [w (Hw & Hin & Hn & Hc & Hconf)].
    rewrite Hw in Hv. destruct Hv as [<-|[]].
    subst k. simpl. auto.
  - intros (Hn & Hin & Hc & Hconf).
    set (x := mk_VendasPorProduto i p [v]).
    assert (Hx : In x (vendas_produtos_raw ps vs)).
    { apply raw_In, join_In. exists v. simpl. auto. }
    destruct (groupby_In _ chave vendas_por_produto_eqb_eq _ _ Hx) as [g [Hkg Hxg]].
    exists (mk_VendasPorProduto i p (concat (map vendas g))).
    split; [|simpl; repeat split].
    + apply ordem_original_In. now exists (chave x), g.
    + apply in_concat. exists [v]. split; [|now left].
      apply in_map_iff. now exists x.
Qed.

(** C1, as the specification words it, fails: with two product entries of
    code 1, the confirmed sale of code 1 is also attached to the entry at
    position 1, although the entry at position 0 carries the same code. *)
Lemma join_first_match_counterexample :
  let ps := [mk_Produto 1 50 20; mk_Produto 1 30 10] in
  let vs := [mk_Venda 1 5 CONFIRMADA_PGTO_OK WEBSITE] in
  multigerar ps vs = [mk 1 50 20 5 45 0 0; mk 1 30 10 5 25 0 0]
  /\ ~ (forall vp, In vp (vendas_produtos_ordem_original ps vs) ->
        forall j q, (j < index vp)%nat -> nth_error ps j = Some q ->
                    codigo q <> codigo (produto vp)).
Proof.
  split; [reflexivity|]. intros H.
  apply (H (mk_VendasPorProduto 1 (mk_Produto 1 30 10)
              [mk_Venda 1 5 CONFIRMADA_PGTO_OK WEBSITE]) (or_intror (or_introl eq_refl))
           0%nat (mk_Produto 1 50 20)); simpl; [lia|reflexivity|reflexivity].
Qed.

(** *** Quantities *)

(** The quantity sold that a list of joined entries stands for. *)
Let total (l : list _VendasPorProduto) : Z :=
  Py.sum (map (fun vp => Py.sum (map qtd (vendas vp))) l).

Lemma total_app (l l' : list _VendasPorProduto) : total (l ++ l') = total l + total l'.
Proof. unfold total. now rewrite map_app, sum_app. Qed.

Lemma total_perm (l l' : list _VendasPorProduto) :
  Permutation l l' -> total l = total l'.
Proof. intros H. apply sum_perm. now apply Permutation_map. Qed.

Lemma total_concat_vendas (g : list _VendasPorProduto) :
  Py.sum (map qtd (concat (map vendas g))) = total g.
Proof.
  induction g as [|x g IH]; [reflexivity|].
  simpl. rewrite map_app, sum_app, IH. reflexivity.
Qed.

Lemma total_agrupar (gs : list (_VendasPorProduto * list _VendasPorProduto)) :
  total (map agrupar gs) = total (concat (map snd gs)).
Proof.
  induction gs as [|[k g] gs IH]; [reflexivity|].
  simpl. rewrite total_app, <- IH. unfold total at 1. simpl.
  now rewrite total_concat_vendas.
Qed.

(** Number of product entries that carry a given code. *)
Let entradas (ps : list _Produto) (c : Z) : Z :=
  Z.of_nat (length (filter (fun p => c =? codigo p) ps)).

Lemma total_join_venda (v : _Venda) (n : nat) (ps : list _Produto) :
  total (flat_map (fun ip : nat * _Produto =>
           let (i, p) := ip in
           if (Entrada.cod_produto v =? codigo p) && is_confirmada (situacao v)
           then [mk_VendasPorProduto i p [v]] else [])
         (Py.enumerate_from n ps))
  = if is_confirmada (situacao v)
    then qtd v * entradas ps (Entrada.cod_produto v) else 0.
Proof.
  unfold entradas. revert n. induction ps as [|p ps IH]; intros n.
  - unfold total. simpl. destruct (is_confirmada (situacao v)); lia.
  - simpl flat_map. simpl filter. rewrite total_app, IH.
    destruct (is_confirmada (situacao v)), (Entrada.cod_produto v =? codigo p);
      unfold total; simpl Py.sum; simpl length; try rewrite Nat2Z.inj_succ; lia.
Qed.

Lemma total_join (ps : list _Produto) (vs : list _Venda) :
  total (vendas_produtos_join ps vs)
  = Py.sum (map (fun v => qtd v * entradas ps (Entrada.cod_produto v))
                (filter (fun v => is_confirmada (situacao v)) vs)).
Proof.
  unfold vendas_produtos_join. induction vs as [|v vs IH]; [reflexivity|].
  simpl. rewrite total_app, IH. unfold Py.enumerate. rewrite total_join_venda.
  destruct (is_confirmada (situacao v)); simpl; lia.
Qed.

Lemma multigerar_qtd_vendas (ps : list _Produto) (vs : list _Venda) :
  Py.sum (map qtd_vendas (multigerar ps vs)) = total (vendas_produtos_join ps vs).
Proof.
  unfold multigerar. rewrite map_map. simpl.
  change (Py.sum (map (fun vp => Py.sum (map qtd (vendas vp)))
                      (vendas_produtos_ordem_original ps vs)))
    with (total (vendas_produtos_ordem_original ps vs)).
  unfold vendas_produtos_ordem_original.
  rewrite (total_perm _ _ (sorted_perm _ _)).
  rewrite agrupados_unfold, total_agrupar. unfold grupos.
  rewrite groupby_concat. unfold vendas_produtos_raw.
  apply total_perm, sorted_perm.
Qed.

Lemma entradas_NoDup (ps : list _Produto) (c : Z) :
  NoDup (map codigo ps) ->
  entradas ps c = if existsb (fun p => c =? codigo p) ps then 1 else 0.
Proof.
  unfold entradas. induction ps as [|p ps IH]; intros Hnd; [reflexivity|].
  simpl in *. inversion Hnd as [|? ? Hnotin Hnd']; subst. specialize (IH Hnd').
  destruct (c =? codigo p) eqn:E; simpl; [|exact IH].
  apply Z.eqb_eq in E. subst c.
  destruct (existsb (fun q => codigo p =? codigo q) ps) eqn:Ex.
  - apply existsb_exists in Ex. destruct Ex as [q [Hq Hc]]. apply Z.eqb_eq in Hc.
    exfalso. apply Hnotin. rewrite Hc. now apply in_map.
  - lia.
Qed.

(** C3, as the code has it.  The quantities sold of the emitted records add
    up to the quantities of the confirmed sales, each sale counted once for
    every product entry that carries its code; when the product codes are
    pairwise distinct this is the sum over the confirmed sales whose code
    matches some product, each counted once. *)
Theorem multigerar_total_vendido (ps : list _Produto) (vs : list _Venda) :
  Py.sum (map qtd_vendas (multigerar ps vs))
  = Py.sum (map (fun v => qtd v * Z.of_nat (length (filter (fun p =>
                            Entrada.cod_produto v =? codigo p) ps)))
                (filter (fun v => is_confirmada (situacao v)) vs))
  /\ (NoDup (map codigo ps) ->
      Py.sum (map qtd_vendas (multigerar ps vs))
      = Py.sum (map qtd (filter (fun v =>
                  is_confirmada (situacao v)
                  && existsb (fun p => Entrada.cod_produto v =? codigo p) ps) vs))).
Proof.
  rewrite multigerar_qtd_vendas, total_join. split; [reflexivity|].
  intros Hnd. induction vs as [|v vs IH]; [reflexivity|].
  simpl. destruct (is_confirmada (situacao v)); simpl; [|exact IH].
  rewrite (entradas_NoDup _ _ Hnd).
  destruct (existsb (fun p => Entrada.cod_produto v =? codigo p) ps); simpl; lia.
Qed.

Lemma multigerar_total_vendido_witness :
  let ps := [mk_Produto 1 50 20; mk_Produto 2 30 10] in
  let vs := [mk_Venda 1 40 CONFIRMADA_PGTO_OK WEBSITE;
             mk_Venda 2 3 CONFIRMADA_PGTO_PENDENTE APP_IOS;
             mk_Venda 7 9 CONFIRMADA_PGTO_OK WEBSITE;
             mk_Venda 2 4 CANCELADA WEBSITE] in
  NoDup (map codigo ps)
  /\ Py.sum (map qtd_vendas (multigerar ps vs)) = 43.
Proof.
  intros ps vs.
  assert (Hnd : NoDup (map codigo ps)).
  { repeat constructor; simpl; intuition discriminate. }
  split; [exact Hnd|].
  rewrite (proj2 (multigerar_total_vendido ps vs) Hnd). reflexivity.
Defined.

(** C3, as the specification words it, fails: one confirmed sale of five
    units of code 1 against two product entries of code 1 yields records
    whose quantities sold add up to ten. *)
Lemma multigerar_total_vendido_counterexample :
  let ps := [mk_Produto 1 50 20; mk_Produto 1 30 10] in
  let vs := [mk_Venda 1 5 CONFIRMADA_PGTO_OK WEBSITE] in
  Py.sum (map qtd_vendas (multigerar ps vs)) = 10
  /\ Py.sum (map qtd (filter (fun v =>
               is_confirmada (situacao v)
               && existsb (fun p => Entrada.cod_produto v =? codigo p) ps) vs)) = 5
  /\ Py.sum (map qtd_vendas (multigerar ps vs))
     <> Py.sum (map qtd (filter (fun v =>
               is_confirmada (situacao v)
               && existsb (fun p => Entrada.cod_produto v =? codigo p) ps) vs)).
Proof.
  repeat split; discriminate.
Qed.

(** *** The fields of a record *)

Lemma multigerar_In (ps : list _Produto) (vs : list _Venda) (n : t) :
  In n (multigerar ps vs) <->
  exists vp, In vp (vendas_produtos_ordem_original ps vs) /\ n = gerar vp.
Proof.
  unfold multigerar. rewrite in_map_iff. split; intros [vp [H1 H2]]; exists vp; auto.
Qed.

(** The absolute value around [max(..., 0)] changes nothing. *)
Lemma gerar_necessidade (vp : _VendasPorProduto) :
  qtd_necessidade (gerar vp)
  = Z.max (qtd_min_produto_co (gerar vp) - qtd_estoque_pos_vendas (gerar vp)) 0.
Proof. simpl. apply Z.abs_eq. lia. Qed.

Lemma gerar_transf (vp : _VendasPorProduto) :
  qtd_transf_arm_co (gerar vp)
  = if (1 <? qtd_necessidade (gerar vp)) && (qtd_necessidade (gerar vp) <? 10)
    then 10 else qtd_necessidade (gerar vp).
Proof. reflexivity. Qed.

(** C4.  In every emitted record the stock after sales is the stock less the
    quantity sold, the need is [max (minimum - stock after sales) 0], and the
    quantity to transfer is 10 when [1 < need < 10] and the need otherwise;
    on the example (stock 50, minimum 20, one confirmed sale of 40) the
    need of 10 passes through as it is. *)
Theorem multigerar_formulas :
  (forall (ps : list _Produto) (vs : list _Venda) (n : t),
      In n (multigerar ps vs) ->
      qtd_estoque_pos_vendas n = qtd_produto_co n - qtd_vendas n
      /\ qtd_necessidade n = Z.max (qtd_min_produto_co n - qtd_estoque_pos_vendas n) 0
      /\ (1 < qtd_necessidade n < 10 -> qtd_transf_arm_co n = 10)
      /\ (~ 1 < qtd_necessidade n < 10 -> qtd_transf_arm_co n = qtd_necessidade n))
  /\ multigerar [mk_Produto 1 50 20] [mk_Venda 1 40 CONFIRMADA_PGTO_OK WEBSITE]
     = [mk 1 50 20 40 10 10 10].
Proof.
  split; [|reflexivity].
  intros ps vs n Hn. apply multigerar_In in Hn. destruct Hn as [vp [_ ->]].
  split; [reflexivity|]. split; [apply gerar_necessidade|].
  rewrite gerar_transf. generalize (qtd_necessidade (gerar vp)). intros ne.
  destruct (Z.ltb_spec 1 ne), (Z.ltb_spec ne 10); simpl; split; intros; lia.
Qed.

Lemma multigerar_formulas_witness :
  let n := mk 1 50 20 33 17 3 10 in
  In n (multigerar [mk_Produto 1 50 20] [mk_Venda 1 33 CONFIRMADA_PGTO_OK WEBSITE])
  /\ qtd_estoque_pos_vendas n = qtd_produto_co n - qtd_vendas n
  /\ qtd_necessidade n = Z.max (qtd_min_produto_co n - qtd_estoque_pos_vendas n) 0
  /\ (1 < qtd_necessidade n < 10 -> qtd_transf_arm_co n = 10)
  /\ (~ 1 < qtd_necessidade n < 10 -> qtd_transf_arm_co n = qtd_necessidade n).
Proof.
  intros n.
  assert (Hn : In n (multigerar [mk_Produto 1 50 20]
                       [mk_Venda 1 33 CONFIRMADA_PGTO_OK WEBSITE])).
  { simpl. left. reflexivity. }
  split; [exact Hn|].
  exact (proj1 multigerar_formulas _ _ n Hn).
Defined.

(** C5, as the code has it.  In every emitted record the quantity to
    transfer is 0 exactly when the need is 0, it is 10 whenever
    [1 < need < 10], and it is the need itself whenever the need is 0, is 1
    or is at least 10. *)
Theorem multigerar_transf_cases (ps : list _Produto) (vs : list _Venda) (n : t) :
  In n (multigerar ps vs) ->
  (qtd_transf_arm_co n = 0 <-> qtd_necessidade n = 0)
  /\ (1 < qtd_necessidade n < 10 -> qtd_transf_arm_co n = 10)
  /\ (qtd_necessidade n = 0 \/ qtd_necessidade n = 1 \/ qtd_necessidade n >= 10 ->
      qtd_transf_arm_co n = qtd_necessidade n).
Proof.
  intros Hn. apply multigerar_In in Hn. destruct Hn as [vp [_ ->]].
  rewrite gerar_transf. generalize (qtd_necessidade (gerar vp)). intros ne.
  destruct (Z.ltb_spec 1 ne), (Z.ltb_spec ne 10); simpl; repeat split; intros; lia.
Qed.

Lemma multigerar_transf_cases_witness :
  let n := mk 1 50 20 31 19 1 1 in
  In n (multigerar [mk_Produto 1 50 20] [mk_Venda 1 31 CONFIRMADA_PGTO_OK WEBSITE])
  /\ (qtd_transf_arm_co n = 0 <-> qtd_necessidade n = 0)
  /\ (1 < qtd_necessidade n < 10 -> qtd_transf_arm_co n = 10)
  /\ (qtd_necessidade n = 0 \/ qtd_necessidade n = 1 \/ qtd_necessidade n >= 10 ->
      qtd_transf_arm_co n = qtd_necessidade n).
Proof.
  intros n.
  assert (Hn : In n (multigerar [mk_Produto 1 50 20]
                       [mk_Venda 1 31 CONFIRMADA_PGTO_OK WEBSITE])).
  { simpl. left. reflexivity. }
  split; [exact Hn|].
  exact (multigerar_transf_cases _ _ n Hn).
Defined.

(** C5, as the specification words it, fails at a need of 1: stock 50,
    minimum 20 and a confirmed sale of 31 leave a stock of 19 and a need of
    1, which lies strictly between 0 and 10, and the quantity to transfer is
    1, not 10. *)
Lemma multigerar_transf_counterexample :
  let ps := [mk_Produto 1 50 20] in
  let vs := [mk_Venda 1 31 CONFIRMADA_PGTO_OK WEBSITE] in
  multigerar ps vs = [mk 1 50 20 31 19 1 1]
  /\ ~ (forall n, In n (multigerar ps vs) ->
        0 < qtd_necessidade n < 10 -> qtd_transf_arm_co n = 10).
Proof.
  split; [reflexivity|]. intros H.
  specialize (H (mk 1 50 20 31 19 1 1) (or_introl eq_refl)). simpl in H.
  assert (H' : 0 < 1 < 10) by lia. specialize (H H'). discriminate H.
Qed.

(** C2: two product entries of code 1 and two confirmed sales of code 1.
    The join is sorted on the product code but grouped on the position of the
    product entry, so the entries of positions 0 and 1 alternate in the sorted
    list and every one of them is a group of its own: four records come out,
    two for each position, each with the quantity of a single sale (5 or 7)
    and none with the 12 units sold of the entry. *)
Theorem multigerar_duplicate_codes_split :
  let ps := [mk_Produto 1 50 20; mk_Produto 1 30 10] in
  let vs := [mk_Venda 1 5 CONFIRMADA_PGTO_OK WEBSITE;
             mk_Venda 1 7 CONFIRMADA_PGTO_PENDENTE WEBSITE] in
  map index (vendas_produtos_ordem_original ps vs) = [0; 0; 1; 1]%nat
  /\ multigerar ps vs
     = [mk 1 50 20 5 45 0 0; mk 1 50 20 7 43 0 0;
        mk 1 30 10 5 25 0 0; mk 1 30 10 7 23 0 0].
Proof.
  split; reflexivity.
Qed.

(** *** Pairwise distinct product codes *)

Lemma codigo_inj (ps : list _Produto) (i j : nat) (p q : _Produto) :
  NoDup (map codigo ps) ->
  nth_error ps i = Some p -> nth_error ps j = Some q ->
  codigo p = codigo q -> i = j /\ p = q.
Proof.
  intros Hnd Hi Hj Hc.
  assert (i = j).
  { rewrite NoDup_nth_error in Hnd. apply Hnd.
    - rewrite length_map. apply nth_error_Some. congruence.
    - rewrite !nth_error_map, Hi, Hj. simpl. now rewrite Hc. }
  subst j. split; [reflexivity|congruence].
Qed.

(** The sales that the join puts next to the product entries of code [c]. *)
Lemma join_venda_codigo (c : Z) (v : _Venda) (n : nat) (ps : list _Produto) :
  concat (map vendas
    (filter (fun x => codigo (produto x) =? c)
       (flat_map (fun ip : nat * _Produto =>
           let (i, p) := ip in
           if (Entrada.cod_produto v =? codigo p) && is_confirmada (situacao v)
           then [mk_VendasPorProduto i p [v]] else [])
         (Py.enumerate_from n ps))))
  = if is_confirmada (situacao v) && (Entrada.cod_produto v =? c)
    then repeat v (length (filter (fun p => c =? codigo p) ps)) else [].
Proof.
  revert n. induction ps as [|p ps IH]; intros n.
  - simpl. now destruct (is_confirmada (situacao v) && (Entrada.cod_produto v =? c)).
  - simpl flat_map. rewrite filter_app, map_app, concat_app, IH. clear IH.
    simpl filter at 2.
    destruct (is_confirmada (situacao v)) eqn:Hconf; simpl;
      [|now rewrite andb_false_r].
    rewrite andb_true_r.
    destruct (Z.eqb_spec (Entrada.cod_produto v) (codigo p)) as [e|ne]; simpl.
    + rewrite <- e. rewrite (Z.eqb_sym c).
      destruct (Entrada.cod_produto v =? c); reflexivity.
    + destruct (Z.eqb_spec (Entrada.cod_produto v) c) as [e'|ne'];
        [|now destruct (c =? codigo p)].
      subst c. destruct (Z.eqb_spec (Entrada.cod_produto v) (codigo p));
        [contradiction|reflexivity].
Qed.

Lemma join_codigo (ps : list _Produto) (vs : list _Venda) (c : Z) :
  length (filter (fun p => c =? codigo p) ps) = 1%nat ->
  concat (map vendas
    (filter (fun x => codigo (produto x) =? c) (vendas_produtos_join ps vs)))
  = filter (fun v => is_confirmada (situacao v) && (Entrada.cod_produto v =? c)) vs.
Proof.
  intros Hone. unfold vendas_produtos_join. induction vs as [|v vs IH]; [reflexivity|].
  simpl flat_map. rewrite filter_app, map_app, concat_app, IH.
  unfold Py.enumerate. rewrite join_venda_codigo, Hone. simpl.
  now destruct (is_confirmada (situacao v) && (Entrada.cod_produto v =? c)).
Qed.

Lemma entradas_one (ps : list _Produto) (i : nat) (p : _Produto) :
  NoDup (map codigo ps) -> nth_error ps i = Some p ->
  length (filter (fun q => codigo p =? codigo q) ps) = 1%nat.
Proof.
  intros Hnd Hi.
  assert (H : entradas ps (codigo p) = 1).
  { rewrite (entradas_NoDup _ _ Hnd).
    replace (existsb (fun q => codigo p =? codigo q) ps) with true; [reflexivity|].
    symmetry. apply existsb_exists. exists p. split.
    - eapply nth_error_In; eauto.
    - apply Z.eqb_refl. }
  unfold entradas in H. lia.
Qed.

(** Where C2 does hold.  When the product codes are pairwise distinct, the
    grouped join has one entry for a product position at most, in strictly
    increasing order of position, and the entry of a product holds exactly
    the confirmed sales of the product's code, in their order, so that the
    quantity sold of its record is the sum of their quantities. *)
Lemma multigerar_distinct_codes (ps : list _Produto) (vs : list _Venda) :
  NoDup (map codigo ps) ->
  StronglySorted lt (map index (vendas_produtos_ordem_original ps vs))
  /\ forall vp, In vp (vendas_produtos_ordem_original ps vs) ->
       nth_error ps (index vp) = Some (produto vp)
       /\ vendas vp = filter (fun v => is_confirmada (situacao v)
                                       && (Entrada.cod_produto v =? codigo (produto vp))) vs
       /\ qtd_vendas (gerar vp)
          = Py.sum (map qtd (filter (fun v =>
              is_confirmada (situacao v)
              && (Entrada.cod_produto v =? codigo (produto vp))) vs)).
Proof.
  intros Hnd.
  set (dom := fun k : _VendasPorProduto =>
                vendas k = [] /\ nth_error ps (index k) = Some (produto k)).
  set (rank := fun k : _VendasPorProduto => codigo (produto k)).
  assert (Hinj : forall a b, dom a -> dom b -> rank a = rank b -> a = b).
  { intros [i p l] [j q m] [Ha1 Ha2] [Hb1 Hb2] Hr. unfold rank in Hr. simpl in *.
    destruct (codigo_inj ps i j p q Hnd Ha2 Hb2 Hr) as [-> ->]. now subst. }
  assert (Hdom : Forall (fun x => dom (chave x)) (vendas_produtos_raw ps vs)).
  { apply Forall_forall. intros x Hx. apply raw_In, join_In in Hx.
    destruct Hx as [v (_ & _ & Hn & _ & _)]. split; [reflexivity|exact Hn]. }
  assert (Hsorted : StronglySorted (fun a b => rank (chave a) <= rank (chave b))
                      (vendas_produtos_raw ps vs)).
  { apply (sorted_sorted (fun vp => codigo (produto vp))). }
  destruct (groupby_sorted vendas_por_produto_eqb chave vendas_por_produto_eqb_eq
              rank dom Hinj _ Hdom Hsorted) as [Hg Hs].
  fold (grupos ps vs) in Hg, Hs. rewrite Forall_forall in Hg.
  assert (Hkey : forall k g, In (k, g) (grupos ps vs) -> dom k).
  { intros k g Hkg. destruct (Hg _ Hkg) as (_ & _ & Hin). simpl in Hin.
    apply in_map_iff in Hin. destruct Hin as [x [<- Hx]].
    rewrite Forall_forall in Hdom. now apply Hdom. }
  split.
  - unfold vendas_produtos_ordem_original.
    apply strictly_sorted_of_nat. apply (sorted_strict (fun vp => Z.of_nat (index vp))).
    rewrite agrupados_unfold, map_map.
    apply strictly_sorted_NoDup in Hs. revert Hs Hkey.
    generalize (grupos ps vs). intros gs. induction gs as [|[k g] gs IH]; intros Hs Hkey.
    + constructor.
    + simpl in *. inversion Hs as [|? ? Hnotin Hs']; subst. constructor.
      * intros Hin. apply Hnotin. apply in_map_iff in Hin.
        destruct Hin as [[k' g'] [He Hin]]. simpl in He.
        apply in_map_iff. exists (k', g'). split; [|exact Hin]. simpl.
        assert (Dk : dom k) by (apply (Hkey k g); now left).
        assert (Dk' : dom k') by (apply (Hkey k' g'); now right).
        destruct Dk as [_ Dk], Dk' as [_ Dk']. unfold rank.
        assert (index k' = index k) by lia.
        congruence.
      * apply IH; [exact Hs'|]. intros k' g' Hin. apply (Hkey k' g'). now right.
  - intros vp Hvp. apply ordem_original_In in Hvp. destruct Hvp as [k [g [Hkg ->]]].
    destruct (Hkey _ _ Hkg) as [_ Dk]. destruct (Hg _ Hkg) as (_ & Hf & _).
    simpl in Hf. simpl index. simpl produto. simpl vendas.
    assert (Hv : concat (map vendas g)
                 = filter (fun v => is_confirmada (situacao v)
                                    && (Entrada.cod_produto v =? codigo (produto k))) vs).
    { rewrite Hf. unfold vendas_produtos_raw. rewrite sorted_stable.
      - apply join_codigo. now apply (entradas_one ps (index k)).
      - intros a b Ha Hb. apply Z.eqb_eq in Ha, Hb. unfold rank in *. simpl in *.
        congruence. }
    split; [exact Dk|]. split; [exact Hv|]. simpl. now rewrite Hv.
Qed.

(** *** What the grouped join holds, and what it leaves out *)

Lemma ordem_original_sound (ps : list _Produto) (vs : list _Venda)
    (vp : _VendasPorProduto) :
  In vp (vendas_produtos_ordem_original ps vs) ->
  nth_error ps (index vp) = Some (produto vp)
  /\ vendas vp <> []
  /\ Forall (fun v => In v vs
                      /\ Entrada.cod_produto v = codigo (produto vp)
                      /\ is_confirmada (situacao v) = true) (vendas vp).
Proof.
  intros Hvp. apply ordem_original_In in Hvp. destruct Hvp as [k [g [Hkg ->]]].
  simpl.
  assert (Hall : forall x, In x g ->
            exists v, vendas x = [v] /\ In v vs
                      /\ nth_error ps (index k) = Some (produto k)
                      /\ Entrada.cod_produto v = codigo (produto k)
                      /\ is_confirmada (situacao v) = true).
  { intros x Hx.
    destruct (groupby_group_In _ _ vendas_por_produto_eqb_eq _ _ _ _ Hkg Hx)
      as [Hraw Hk].
    apply raw_In, join_In in Hraw. destruct Hraw as [v (Hv & Hin & Hn & Hc & Hconf)].
    exists v. subst k. simpl. auto. }
  pose proof (groupby_ok _ chave vendas_por_produto_eqb_eq (vendas_produtos_raw ps vs))
    as Hok.
  rewrite Forall_forall in Hok. destruct (Hok _ Hkg) as [Hne _]. simpl in Hne.
  destruct g as [|x g]; [contradiction|]. split; [|split].
  - destruct (Hall x (or_introl eq_refl)) as [v (_ & _ & Hn & _)]. exact Hn.
  - destruct (Hall x (or_introl eq_refl)) as [v (Hv & _)]. simpl. rewrite Hv. discriminate.
  - apply Forall_forall. intros v Hv. apply in_concat in Hv.
    destruct Hv as [l [Hl Hv]]. apply in_map_iff in Hl. destruct Hl as [y [<- Hy]].
    destruct (Hall y Hy) as [w (Hw & Hin & _ & Hc & Hconf)].
    rewrite Hw in Hv. destruct Hv as [<-|[]]. auto.
Qed.

Lemma ordem_original_complete (ps : list _Produto) (vs : list _Venda)
    (i : nat) (p : _Produto) (v : _Venda) :
  nth_error ps i = Some p -> In v vs ->
  Entrada.cod_produto v = codigo p -> is_confirmada (situacao v) = true ->
  exists vp, In vp (vendas_produtos_ordem_original ps vs)
             /\ index vp = i /\ produto vp = p /\ In v (vendas vp).
Proof.
  intros Hn Hin Hc Hconf.
  set (x := mk_VendasPorProduto i p [v]).
  assert (Hx : In x (vendas_produtos_raw ps vs)).
  { apply raw_In, join_In. exists v. simpl. auto. }
  destruct (groupby_In _ chave vendas_por_produto_eqb_eq _ _ Hx) as [g [Hkg Hxg]].
  exists (mk_VendasPorProduto i p (concat (map vendas g))).
  split; [|simpl; repeat split].
  - apply ordem_original_In. now exists (chave x), g.
  - apply in_concat. exists [v]. split; [|now left].
    apply in_map_iff. now exists x.
Qed.

(** The transfer report has a record of product code [c] exactly when some
    product entry and some confirmed sale both carry [c]: without products,
    without sales, or with no confirmed sale of a known product, the report
    is empty. *)
Theorem multigerar_cod_produto (ps : list _Produto) (vs : list _Venda) (c : Z) :
  In c (map cod_produto (multigerar ps vs)) <->
  exists p v, In p ps /\ In v vs /\ codigo p = c
              /\ Entrada.cod_produto v = c /\ is_confirmada (situacao v) = true.
Proof.
  unfold multigerar. rewrite map_map. simpl. rewrite in_map_iff. split.
  - intros [vp [<- Hvp]]. destruct (ordem_original_sound ps vs vp Hvp) as (Hn & Hne & Hall).
    destruct (vendas vp) as [|v l]; [contradiction|].
    inversion Hall as [|? ? (Hin & Hc & Hconf) _]; subst.
    exists (produto vp), v. repeat split; try assumption.
    eapply nth_error_In; eauto.
  - intros [p [v (Hp & Hin & Hcp & Hc & Hconf)]].
    apply In_nth_error in Hp. destruct Hp as [i Hi].
    destruct (ordem_original_complete ps vs i p v Hi Hin) as [vp (Hvp & _ & Hpp & _)];
      [congruence|exact Hconf|].
    exists vp. split; [now rewrite Hpp|exact Hvp].
Qed.

(** In every record of the transfer report the need is not negative, the
    quantity to transfer is the need or the batch of 10, and it is never
    less than the need. *)
Theorem multigerar_transf_bounds (ps : list _Produto) (vs : list _Venda) (n : t) :
  In n (multigerar ps vs) ->
  0 <= qtd_necessidade n
  /\ qtd_necessidade n <= qtd_transf_arm_co n
  /\ (qtd_transf_arm_co n = qtd_necessidade n \/ qtd_transf_arm_co n = 10).
Proof.
  intros Hn. apply multigerar_In in Hn. destruct Hn as [vp [_ ->]].
  rewrite gerar_transf.
  assert (H0 : 0 <= qtd_necessidade (gerar vp)) by (rewrite gerar_necessidade; lia).
  revert H0. generalize (qtd_necessidade (gerar vp)). intros ne H0.
  destruct (Z.ltb_spec 1 ne), (Z.ltb_spec ne 10); simpl; lia.
Qed.

Lemma multigerar_transf_bounds_witness :
  let n := mk 1 50 20 33 17 3 10 in
  In n (multigerar [mk_Produto 1 50 20] [mk_Venda 1 33 CONFIRMADA_PGTO_OK WEBSITE])
  /\ 0 <= qtd_necessidade n
  /\ qtd_necessidade n <= qtd_transf_arm_co n
  /\ (qtd_transf_arm_co n = qtd_necessidade n \/ qtd_transf_arm_co n = 10).
Proof.
  intros n.
  assert (Hn : In n (multigerar [mk_Produto 1 50 20]
                       [mk_Venda 1 33 CONFIRMADA_PGTO_OK WEBSITE])).
  { simpl. left. reflexivity. }
  split; [exact Hn|].
  exact (multigerar_transf_bounds _ _ n Hn).
Defined.

(** A sale that is not confirmed, or whose product code no product carries,
    is not joined to anything. *)
Lemma join_venda_nil (ps : list _Produto) (v : _Venda) (n : nat) :
  (is_confirmada (situacao v)
   && existsb (fun p => Entrada.cod_produto v =? codigo p) ps) = false ->
  flat_map (fun ip : nat * _Produto =>
      let (i, p) := ip in
      if (Entrada.cod_produto v =? codigo p) && is_confirmada (situacao v)
      then [mk_VendasPorProduto i p [v]] else [])
    (Py.enumerate_from n ps) = [].
Proof.
  revert n. induction ps as [|p ps IH]; intros n H; [reflexivity|].
  simpl in *. destruct (is_confirmada (situacao v)); simpl in *.
  - apply orb_false_iff in H. destruct H as [H1 H2]. rewrite H1. simpl.
    now apply IH.
  - rewrite andb_false_r. simpl. now apply IH.
Qed.

(** The transfer report does not change when the sales that are not
    confirmed and the sales of unknown product codes are taken out of the
    sales sequence. *)
Theorem multigerar_ignores_divergent (ps : list _Produto) (vs : list _Venda) :
  multigerar ps vs
  = multigerar ps
      (filter (fun v => is_confirmada (situacao v)
                        && existsb (fun p => Entrada.cod_produto v =? codigo p) ps) vs).
Proof.
  assert (Hj : vendas_produtos_join ps vs
               = vendas_produtos_join ps
                   (filter (fun v => is_confirmada (situacao v)
                      && existsb (fun p => Entrada.cod_produto v =? codigo p) ps) vs)).
  { unfold vendas_produtos_join. induction vs as [|v vs IH]; [reflexivity|].
    simpl. destruct (is_confirmada (situacao v)
                     && existsb (fun p => Entrada.cod_produto v =? codigo p) ps) eqn:E.
    - simpl. now rewrite IH.
    - unfold Py.enumerate at 1. rewrite (join_venda_nil ps v 0 E). exact IH. }
  unfold multigerar, vendas_produtos_ordem_original, vendas_produtos_agrupados,
    vendas_produtos_raw. now rewrite <- Hj.
Qed.

(** *** The report as one pass over the products *)

(** The entry of the grouped join for the product at a position, if any. *)
Let entrada (vs : list _Venda) (ip : nat * _Produto) : list _VendasPorProduto :=
  let (i, p) := ip in
  match filter (fun v => is_confirmada (situacao v)
                         && (Entrada.cod_produto v =? codigo p)) vs with
  | [] => []
  | g => [mk_VendasPorProduto i p g]
  end.

Lemma entrada_In (vs : list _Venda) (i : nat) (p : _Produto) (vp : _VendasPorProduto) :
  In vp (entrada vs (i, p)) <->
  vendas vp <> []
  /\ vp = mk_VendasPorProduto i p
            (filter (fun v => is_confirmada (situacao v)
                              && (Entrada.cod_produto v =? codigo p)) vs).
Proof.
  unfold entrada.
  destruct (filter (fun v => is_confirmada (situacao v)
                             && (Entrada.cod_produto v =? codigo p)) vs) as [|v g].
  - simpl. split; [tauto|]. intros [Hne ->]. now apply Hne.
  - simpl. split.
    + intros [<-|[]]. split; [discriminate|reflexivity].
    + intros [_ ->]. now left.
Qed.

Lemma entradas_sorted (vs : list _Venda) (n : nat) (ps : list _Produto) :
  StronglySorted Z.lt
    (map (fun vp => Z.of_nat (index vp))
       (flat_map (entrada vs) (Py.enumerate_from n ps)))
  /\ Forall (fun vp => (n <= index vp)%nat)
       (flat_map (entrada vs) (Py.enumerate_from n ps)).
Proof.
  revert n. induction ps as [|p ps IH]; intros n; [split; constructor|].
  destruct (IH (S n)) as [IH1 IH2].
  assert (Hcons : flat_map (entrada vs) (Py.enumerate_from n (p :: ps))
                  = (entrada vs (n, p)
                     ++ flat_map (entrada vs) (Py.enumerate_from (S n) ps))%list)
    by reflexivity.
  rewrite Hcons. clear Hcons.
  assert (Hhd : entrada vs (n, p) = []
                \/ exists g, entrada vs (n, p) = [mk_VendasPorProduto n p g]).
  { unfold entrada. destruct (filter _ vs); [now left|right; eauto]. }
  destruct Hhd as [->|[g ->]]; simpl.
  - split; [exact IH1|]. eapply Forall_impl; [|exact IH2]. simpl. intros; lia.
  - split.
    + constructor; [exact IH1|]. rewrite Forall_forall in *.
      intros z Hz. apply in_map_iff in Hz. destruct Hz as [vp [<- Hvp]].
      specialize (IH2 _ Hvp). simpl in IH2. lia.
    + constructor; [simpl; lia|]. eapply Forall_impl; [|exact IH2]. simpl. intros; lia.
Qed.

Lemma strictly_sorted_to_Z {A : Type} (f : A -> nat) (l : list A) :
  StronglySorted lt (map f l) ->
  StronglySorted Z.lt (map (fun x => Z.of_nat (f x)) l).
Proof.
  induction l as [|x l IH]; simpl; intros H; [constructor|].
  inversion H as [|? ? Hs Hx]; subst. constructor; [now apply IH|].
  rewrite Forall_forall in *. intros z Hz.
  apply in_map_iff in Hz. destruct Hz as [y [<- Hy]].
  assert (f x < f y)%nat by (apply Hx; now apply in_map).
  lia.
Qed.

Lemma ordem_original_distinct_codes (ps : list _Produto) (vs : list _Venda) :
  NoDup (map codigo ps) ->
  vendas_produtos_ordem_original ps vs = flat_map (entrada vs) (Py.enumerate ps).
Proof.
  intros Hnd. destruct (multigerar_distinct_codes ps vs Hnd) as [Hs Hall].
  apply (strictly_sorted_ext (fun vp => Z.of_nat (index vp))).
  - now apply strictly_sorted_to_Z.
  - apply entradas_sorted.
  - intros vp. rewrite in_flat_map. split.
    + intros Hvp. destruct (Hall vp Hvp) as (Hn & Hv & _).
      destruct (ordem_original_sound ps vs vp Hvp) as (_ & Hne & _).
      exists (index vp, produto vp). split; [now apply enumerate_In|].
      apply entrada_In. split; [exact Hne|].
      destruct vp as [i p l]. simpl in *. now rewrite Hv.
    + intros [[i p] [Hip Hvp]]. apply enumerate_In in Hip.
      apply entrada_In in Hvp. destruct Hvp as [Hne ->]. simpl in Hne.
      destruct (filter (fun v => is_confirmada (situacao v)
                                 && (Entrada.cod_produto v =? codigo p)) vs)
        as [|v g] eqn:Hf; [contradiction|].
      assert (Hv : In v (filter (fun v => is_confirmada (situacao v)
                                          && (Entrada.cod_produto v =? codigo p)) vs))
        by (rewrite Hf; now left).
      apply filter_In in Hv. destruct Hv as [Hin Hb].
      apply andb_true_iff in Hb. destruct Hb as [Hconf Hc]. apply Z.eqb_eq in Hc.
      destruct (ordem_original_complete ps vs i p v Hip Hin Hc Hconf)
        as [vp (Hvp & Hi & Hp & _)].
      destruct (Hall vp Hvp) as (_ & Hv & _).
      destruct vp as [i' p' l]. simpl in *. subst i' p'.
      rewrite Hv, Hf in Hvp. exact Hvp.
Qed.

(** When the product codes are pairwise distinct, the transfer report is
    what one pass over the products, in the order of the product sequence,
    gives: a product without a confirmed sale of its code is skipped, any
    other gets one record, computed from the sum of the quantities of all
    the confirmed sales of its code. *)
Theorem multigerar_por_produto (ps : list _Produto) (vs : list _Venda) :
  NoDup (map codigo ps) ->
  multigerar ps vs
  = flat_map (fun p =>
      match filter (fun v => is_confirmada (situacao v)
                             && (Entrada.cod_produto v =? codigo p)) vs with
      | [] => []
      | g =>
          let vendido := Py.sum (map qtd g) in
          let ne := Z.max (qtd_min_co p - (qtd_estoque p - vendido)) 0 in
          [mk (codigo p) (qtd_estoque p) (qtd_min_co p) vendido
              (qtd_estoque p - vendido) ne
              (if (1 <? ne) && (ne <? 10) then 10 else ne)]
      end) ps.
Proof.
  intros Hnd. unfold multigerar. rewrite (ordem_original_distinct_codes ps vs Hnd).
  unfold Py.enumerate. generalize 0%nat.
  induction ps as [|p ps IH]; intros n; [reflexivity|].
  inversion Hnd as [|? ? _ Hnd']; subst.
  simpl flat_map. rewrite map_app, (IH Hnd' (S n)). f_equal.
  unfold entrada.
  destruct (filter (fun v => is_confirmada (situacao v)
                             && (Entrada.cod_produto v =? codigo p)) vs) as [|v g];
    [reflexivity|].
  cbv zeta. simpl map at 1. unfold gerar. cbv zeta. simpl vendas. simpl produto.
  rewrite Z.abs_eq by lia. reflexivity.
Qed.

Lemma multigerar_por_produto_witness :
  let ps := [mk_Produto 2 50 20; mk_Produto 1 30 10; mk_Produto 3 7 7] in
  let vs := [mk_Venda 1 5 CONFIRMADA_PGTO_OK WEBSITE;
             mk_Venda 2 7 CONFIRMADA_PGTO_PENDENTE APP_IOS;
             mk_Venda 1 21 CONFIRMADA_PGTO_PENDENTE WEBSITE;
             mk_Venda 3 4 CANCELADA REPR_COMERCIAL] in
  NoDup (map codigo ps)
  /\ multigerar ps vs = [mk 2 50 20 7 43 0 0; mk 1 30 10 26 4 6 10].
Proof.
  intros ps vs.
  assert (Hnd : NoDup (map codigo ps)).
  { repeat constructor; simpl; intuition discriminate. }
  split; [exact Hnd|].
  rewrite (multigerar_por_produto ps vs Hnd). reflexivity.
Defined.

End NecessidadeFacts.

(** * Divergences *)

Section DivergenciaFacts.

Import Divergencia.

(** The record of one sale, if the sale is flagged. *)
Let registro (ps : list _Produto) (iv : nat * _Venda) : list t :=
  let (i, v) := iv in
  let sp := s_produto ps v in
  if sp || negb (is_confirmada (situacao v))
  then [mk (i + 1)
           (if sp
            then (__MSG_SEM_COD ++ " " ++ Py.format_05d (Entrada.cod_produto v))%string
            else msg_erro (situacao v))]
  else [].

(** The records of the sales that [enumerate] numbers from [n] on. *)
Let desde (ps : list _Produto) (n : nat) (vs : list _Venda) : list t :=
  flat_map (registro ps) (Py.enumerate_from n vs).

Lemma multigerar_desde (ps : list _Produto) (vs : list _Venda) :
  multigerar ps vs = desde ps 0 vs.
Proof. reflexivity. Qed.

Lemma desde_cons (ps : list _Produto) (n : nat) (v : _Venda) (vs : list _Venda) :
  desde ps n (v :: vs) = (registro ps (n, v) ++ desde ps (S n) vs)%list.
Proof. reflexivity. Qed.

(** A record stands for the sale at its line, and says why. *)
Lemma desde_In (ps : list _Produto) (n : nat) (vs : list _Venda) (d : t) :
  In d (desde ps n vs) <->
  exists i v,
    nth_error vs i = Some v
    /\ (s_produto ps v || negb (is_confirmada (situacao v))) = true
    /\ d = mk (n + i + 1)
             (if s_produto ps v
              then (__MSG_SEM_COD ++ " " ++ Py.format_05d (Entrada.cod_produto v))%string
              else msg_erro (situacao v)).
Proof.
  unfold desde. rewrite in_flat_map. split.
  - intros [[j v] [Hjv Hd]]. apply enumerate_from_In in Hjv. destruct Hjv as [Hle Hn].
    unfold registro in Hd.
    destruct (s_produto ps v || negb (is_confirmada (situacao v))) eqn:E; [|contradiction].
    destruct Hd as [<-|[]]. exists (j - n)%nat, v. repeat split; try assumption.
    f_equal. lia.
  - intros [i [v (Hn & E & ->)]]. exists ((n + i)%nat, v). split.
    + apply enumerate_from_In. split; [lia|].
      replace (n + i - n)%nat with i by lia. exact Hn.
    + unfold registro. rewrite E. now left.
Qed.

Lemma desde_linhas (ps : list _Produto) (n : nat) (vs : list _Venda) (d : t) :
  In d (desde ps n vs) -> (n + 1 <= num_linha_venda d <= n + length vs)%nat.
Proof.
  intros H. apply desde_In in H. destruct H as [i [v (Hn & _ & ->)]]. simpl.
  assert (i < length vs)%nat by (apply nth_error_Some; congruence). lia.
Qed.

Lemma desde_sorted (ps : list _Produto) (n : nat) (vs : list _Venda) :
  StronglySorted lt (map num_linha_venda (desde ps n vs)).
Proof.
  revert n. induction vs as [|v vs IH]; intros n; [constructor|].
  rewrite desde_cons. unfold registro.
  destruct (s_produto ps v || negb (is_confirmada (situacao v))); simpl; [|apply IH].
  constructor; [apply IH|].
  apply Forall_forall. intros l Hl. apply in_map_iff in Hl. destruct Hl as [d [<- Hd]].
  apply desde_linhas in Hd. lia.
Qed.

Lemma desde_count (ps : list _Produto) (n : nat) (vs : list _Venda) (i : nat) (v : _Venda) :
  nth_error vs i = Some v ->
  count_occ Nat.eq_dec (map num_linha_venda (desde ps n vs)) (n + i + 1)%nat
  = if s_produto ps v || negb (is_confirmada (situacao v)) then 1%nat else 0%nat.
Proof.
  revert n i. induction vs as [|w vs IH]; intros n i Hn; [destruct i; discriminate|].
  rewrite desde_cons, map_app, count_occ_app. destruct i as [|i]; simpl in Hn.
  - inversion Hn; subst w. clear Hn.
    assert (Hrest : count_occ Nat.eq_dec (map num_linha_venda (desde ps (S n) vs))
                      (n + 0 + 1)%nat = 0%nat).
    { apply count_occ_not_In. intros Hin. apply in_map_iff in Hin.
      destruct Hin as [d [Hd Hin]]. apply desde_linhas in Hin. lia. }
    rewrite Hrest. unfold registro.
    destruct (s_produto ps v || negb (is_confirmada (situacao v))); simpl; [|reflexivity].
    destruct (Nat.eq_dec (n + 1) (n + 0 + 1)); lia.
  - replace (n + S i + 1)%nat with (S n + i + 1)%nat by lia.
    rewrite (IH (S n) i Hn).
    assert (Hhd : count_occ Nat.eq_dec (map num_linha_venda (registro ps (n, w)))
                    (S n + i + 1)%nat = 0%nat).
    { unfold registro.
      destruct (s_produto ps w || negb (is_confirmada (situacao w))); simpl; [|reflexivity].
      destruct (Nat.eq_dec (n + 1) (S (n + i + 1))); [lia|reflexivity]. }
    rewrite Hhd. reflexivity.
Qed.

(** C6.  The sale at position [i] (line [i + 1]) has exactly one divergence
    when its product code matches no product or its status is not confirmed,
    and none otherwise, so that a confirmed sale of a known product, be its
    payment settled or pending, is never flagged; every divergence stands for
    a line of the sales sequence, and the divergences come in strictly
    increasing order of line. *)
Theorem divergencia_multigerar_flags (ps : list _Produto) (vs : list _Venda) :
  (forall (i : nat) (v : _Venda),
      nth_error vs i = Some v ->
      count_occ Nat.eq_dec (map num_linha_venda (multigerar ps vs)) (i + 1)%nat
      = if s_produto ps v || negb (is_confirmada (situacao v)) then 1%nat else 0%nat)
  /\ (forall (i : nat) (v : _Venda),
      nth_error vs i = Some v ->
      s_produto ps v = false ->
      situacao v = CONFIRMADA_PGTO_OK \/ situacao v = CONFIRMADA_PGTO_PENDENTE ->
      ~ In (i + 1)%nat (map num_linha_venda (multigerar ps vs)))
  /\ (forall d : t, In d (multigerar ps vs) ->
                    (1 <= num_linha_venda d <= length vs)%nat)
  /\ StronglySorted lt (map num_linha_venda (multigerar ps vs)).
Proof.
  rewrite multigerar_desde. split; [|split; [|split]].
  - intros i v Hn. apply (desde_count ps 0 vs i v Hn).
  - intros i v Hn Hs Hc.
    apply (count_occ_not_In Nat.eq_dec).
    change (i + 1)%nat with (0 + i + 1)%nat.
    rewrite (desde_count ps 0 vs i v Hn), Hs.
    destruct Hc as [-> | ->]; reflexivity.
  - intros d Hd. apply desde_linhas in Hd. lia.
  - apply desde_sorted.
Qed.

Lemma divergencia_multigerar_flags_witness :
  let ps := [mk_Produto 2 50 20; mk_Produto 1 30 10] in
  let vs := [mk_Venda 1 5 CONFIRMADA_PGTO_OK WEBSITE;
             mk_Venda 2 7 CONFIRMADA_PGTO_PENDENTE APP_IOS;
             mk_Venda 3 40 CONFIRMADA_PGTO_PENDENTE WEBSITE;
             mk_Venda 1 40 CANCELADA REPR_COMERCIAL] in
  nth_error vs 1%nat = Some (mk_Venda 2 7 CONFIRMADA_PGTO_PENDENTE APP_IOS)
  /\ count_occ Nat.eq_dec (map num_linha_venda (multigerar ps vs)) 2%nat = 0%nat
  /\ nth_error vs 2%nat = Some (mk_Venda 3 40 CONFIRMADA_PGTO_PENDENTE WEBSITE)
  /\ count_occ Nat.eq_dec (map num_linha_venda (multigerar ps vs)) 3%nat = 1%nat.
Proof.
  intros ps vs.
  assert (H1 : nth_error vs 1%nat = Some (mk_Venda 2 7 CONFIRMADA_PGTO_PENDENTE APP_IOS))
    by reflexivity.
  assert (H2 : nth_error vs 2%nat = Some (mk_Venda 3 40 CONFIRMADA_PGTO_PENDENTE WEBSITE))
    by reflexivity.
  split; [exact H1|]. split.
  - exact (proj1 (divergencia_multigerar_flags ps vs) 1%nat _ H1).
  - split; [exact H2|].
    exact (proj1 (divergencia_multigerar_flags ps vs) 2%nat _ H2).
Defined.

(** *** Messages *)

(** The message for an unknown product code is none of the status messages. *)
Lemma msg_sem_cod_not_msg_erro (x : string) (s : _SituacaoVenda) :
  (__MSG_SEM_COD ++ " " ++ x)%string <> msg_erro s.
Proof.
  destruct s; discriminate.
Qed.

Lemma multigerar_linha (ps : list _Produto) (vs : list _Venda) (i : nat) (v : _Venda)
    (d : t) :
  nth_error vs i = Some v ->
  In d (multigerar ps vs) ->
  num_linha_venda d = (i + 1)%nat ->
  (s_produto ps v || negb (is_confirmada (situacao v))) = true
  /\ msg_err d = if s_produto ps v
                 then (__MSG_SEM_COD ++ " " ++ Py.format_05d (Entrada.cod_produto v))%string
                 else msg_erro (situacao v).
Proof.
  intros Hn Hd Hl. rewrite multigerar_desde in Hd. apply desde_In in Hd.
  destruct Hd as [j [w (Hj & E & ->)]]. simpl in Hl.
  assert (j = i) by lia. subst j.
  assert (w = v) by congruence. subst w. now split.
Qed.

(** C7.  For a sale whose product code matches no product, whatever its
    status, and so also when the status is not confirmed, the divergence of
    its line carries the message for an unknown product code, the fixed text
    followed by the code in the [05d] format, and not the message of the
    status; a divergence that carries the message of the status belongs to a
    sale whose product code does match a product. *)
Theorem divergencia_unmatched_precedence (ps : list _Produto) (vs : list _Venda)
    (i : nat) (v : _Venda) :
  nth_error vs i = Some v ->
  (s_produto ps v = true ->
   In (mk (i + 1) (__MSG_SEM_COD ++ " " ++ Py.format_05d (Entrada.cod_produto v))%string)
      (multigerar ps vs)
   /\ forall d : t,
        In d (multigerar ps vs) -> num_linha_venda d = (i + 1)%nat ->
        msg_err d = (__MSG_SEM_COD ++ " " ++ Py.format_05d (Entrada.cod_produto v))%string
        /\ msg_err d <> msg_erro (situacao v))
  /\ (forall d : t,
        In d (multigerar ps vs) -> num_linha_venda d = (i + 1)%nat ->
        msg_err d = msg_erro (situacao v) ->
        s_produto ps v = false /\ is_confirmada (situacao v) = false).
Proof.
  intros Hn. split.
  - intros Hs. split.
    + rewrite multigerar_desde. apply desde_In. exists i, v.
      rewrite Hs. repeat split; assumption.
    + intros d Hd Hl. destruct (multigerar_linha ps vs i v d Hn Hd Hl) as [_ Hm].
      rewrite Hs in Hm. rewrite Hm. split; [reflexivity|].
      apply msg_sem_cod_not_msg_erro.
  - intros d Hd Hl Hmsg. destruct (multigerar_linha ps vs i v d Hn Hd Hl) as [E Hm].
    destruct (s_produto ps v) eqn:Hs.
    + exfalso. rewrite Hm in Hmsg. now apply msg_sem_cod_not_msg_erro in Hmsg.
    + split; [reflexivity|]. simpl in E. now apply negb_true_iff in E.
Qed.

Lemma divergencia_unmatched_precedence_witness :
  let ps := [mk_Produto 1 50 20] in
  let vs := [mk_Venda 1 40 CONFIRMADA_PGTO_OK WEBSITE;
             mk_Venda 999 3 CANCELADA APP_ANDROID;
             mk_Venda 1 2 NAO_FINALIZADA WEBSITE] in
  nth_error vs 1%nat = Some (mk_Venda 999 3 CANCELADA APP_ANDROID)
  /\ s_produto ps (mk_Venda 999 3 CANCELADA APP_ANDROID) = true
  /\ is_confirmada CANCELADA = false
  /\ In (mk 2 "Código de Produto não encontrado 00999") (multigerar ps vs).
Proof.
  intros ps vs.
  assert (Hn : nth_error vs 1%nat = Some (mk_Venda 999 3 CANCELADA APP_ANDROID))
    by reflexivity.
  assert (Hs : s_produto ps (mk_Venda 999 3 CANCELADA APP_ANDROID) = true)
    by reflexivity.
  split; [exact Hn|]. split; [exact Hs|]. split; [reflexivity|].
  exact (proj1 (proj1 (divergencia_unmatched_precedence ps vs 1%nat _ Hn) Hs)).
Defined.

(** *** What the divergences depend on *)

Lemma desde_cod_situacao (ps : list _Produto) (n : nat) (vs ws : list _Venda) :
  map (fun v => (Entrada.cod_produto v, situacao v)) vs
  = map (fun v => (Entrada.cod_produto v, situacao v)) ws ->
  desde ps n vs = desde ps n ws.
Proof.
  revert n ws. induction vs as [|v vs IH]; intros n [|w ws] H; try discriminate H.
  - reflexivity.
  - simpl in H. inversion H as [[Hc Hs Ht]].
    rewrite !desde_cons, (IH (S n) ws Ht). f_equal.
    unfold registro, s_produto. now rewrite Hc, Hs.
Qed.

(** C10.  Two sales sequences that agree, position by position, on product
    code and status have the same divergences against the same products,
    whatever their quantities and channels. *)
Theorem divergencia_independent_of_qtd_canal (ps : list _Produto)
    (vs ws : list _Venda) :
  map (fun v => (Entrada.cod_produto v, situacao v)) vs
  = map (fun v => (Entrada.cod_produto v, situacao v)) ws ->
  multigerar ps vs = multigerar ps ws.
Proof.
  intros H. rewrite !multigerar_desde. now apply desde_cod_situacao.
Qed.

Lemma divergencia_independent_of_qtd_canal_witness :
  let ps := [mk_Produto 1 50 20] in
  let vs := [mk_Venda 1 40 CONFIRMADA_PGTO_OK WEBSITE;
             mk_Venda 999 3 CANCELADA APP_ANDROID] in
  let ws := [mk_Venda 1 (-7) CONFIRMADA_PGTO_OK APP_IOS;
             mk_Venda 999 1000 CANCELADA REPR_COMERCIAL] in
  multigerar ps vs = multigerar ps ws.
Proof.
  intros ps vs ws.
  apply (divergencia_independent_of_qtd_canal ps vs ws). reflexivity.
Defined.

(** *** Size and content of the report *)

Lemma registro_length (ps : list _Produto) (n : nat) (v : _Venda) :
  length (registro ps (n, v))
  = if s_produto ps v || negb (is_confirmada (situacao v)) then 1%nat else 0%nat.
Proof.
  unfold registro. now destruct (s_produto ps v || negb (is_confirmada (situacao v))).
Qed.

(** The divergence report has as many records as there are sales whose
    product code is unknown or whose status is not confirmed, hence no more
    than there are sales. *)
Theorem divergencia_multigerar_length (ps : list _Produto) (vs : list _Venda) :
  length (multigerar ps vs)
  = length (filter (fun v => s_produto ps v || negb (is_confirmada (situacao v))) vs)
  /\ (length (multigerar ps vs) <= length vs)%nat.
Proof.
  rewrite multigerar_desde. generalize 0%nat.
  induction vs as [|v vs IH]; intros n; [split; reflexivity|].
  rewrite desde_cons, length_app, registro_length. destruct (IH (S n)) as [IH1 IH2].
  simpl filter. simpl length at 4.
  destruct (s_produto ps v || negb (is_confirmada (situacao v))); simpl; lia.
Qed.

(** The divergence report is empty exactly when every sale is confirmed and
    names a product of the product sequence. *)
Theorem divergencia_multigerar_nil (ps : list _Produto) (vs : list _Venda) :
  multigerar ps vs = [] <->
  forall v, In v vs ->
            existsb (fun p => Entrada.cod_produto v =? codigo p) ps = true
            /\ is_confirmada (situacao v) = true.
Proof.
  rewrite multigerar_desde. generalize 0%nat.
  induction vs as [|v vs IH]; intros n.
  - simpl. split; [intros _ v []|reflexivity].
  - rewrite desde_cons. split.
    + intros H. apply app_eq_nil in H. destruct H as [Hr Hd].
      unfold registro, s_produto in Hr.
      destruct (existsb (fun p => Entrada.cod_produto v =? codigo p) ps) eqn:E1;
        destruct (is_confirmada (situacao v)) eqn:E2; try discriminate Hr.
      intros w [<-|Hw]; [now split|]. now apply (proj1 (IH (S n))).
    + intros H. destruct (H v (or_introl eq_refl)) as [H1 H2].
      unfold registro, s_produto. rewrite H1, H2. simpl.
      apply IH. intros w Hw. apply H. now right.
Qed.

(** Every message of the divergence report is the message of an unknown
    product code, for the code of some sale, or one of the three messages of
    the statuses that are not confirmed; it is never ["N/A"]. *)
Theorem divergencia_msg_err (ps : list _Produto) (vs : list _Venda) (d : t) :
  In d (multigerar ps vs) ->
  msg_err d <> "N/A"%string
  /\ ((exists v, In v vs
                 /\ msg_err d = (__MSG_SEM_COD ++ " "
                                 ++ Py.format_05d (Entrada.cod_produto v))%string)
      \/ msg_err d = msg_erro CANCELADA
      \/ msg_err d = msg_erro NAO_FINALIZADA
      \/ msg_err d = msg_erro ERRO_NAO_IDENTIFICADO).
Proof.
  intros Hd. rewrite multigerar_desde in Hd. apply desde_In in Hd.
  destruct Hd as [i [v (Hn & E & ->)]]. simpl.
  destruct (s_produto ps v); simpl in E.
  - split; [discriminate|]. left. exists v. split; [|reflexivity].
    eapply nth_error_In; eauto.
  - destruct (situacao v); try discriminate E; split; try discriminate; auto.
Qed.

Lemma divergencia_msg_err_witness :
  let ps := [mk_Produto 1 50 20] in
  let vs := [mk_Venda 1 40 ERRO_NAO_IDENTIFICADO WEBSITE] in
  let d := mk 1 "Erro desconhecido. Acionar equipe de TI." in
  In d (multigerar ps vs) /\ msg_err d <> "N/A"%string.
Proof.
  intros ps vs d.
  assert (Hd : In d (multigerar ps vs)) by (simpl; left; reflexivity).
  split; [exact Hd|].
  exact (proj1 (divergencia_msg_err ps vs d Hd)).
Defined.

(** *** Divergences and transfer needs *)

(** A sale is either reported as a divergence, at its line, or counted in a
    record of the transfer report, never both and never neither. *)
Theorem venda_divergente_ou_transferida (ps : list _Produto) (vs : list _Venda)
    (i : nat) (v : _Venda) :
  nth_error vs i = Some v ->
  (In (i + 1)%nat (map num_linha_venda (multigerar ps vs)) <->
   ~ exists vp, In vp (NecessidadeTransferencia.vendas_produtos_ordem_original ps vs)
                /\ In v (vendas vp)).
Proof.
  intros Hn.
  assert (Hflag : In (i + 1)%nat (map num_linha_venda (multigerar ps vs)) <->
                  (s_produto ps v || negb (is_confirmada (situacao v))) = true).
  { rewrite (count_occ_In Nat.eq_dec), multigerar_desde.
    change (i + 1)%nat with (0 + i + 1)%nat. rewrite (desde_count ps 0 vs i v Hn).
    destruct (s_produto ps v || negb (is_confirmada (situacao v))); split;
      intros H; try lia; try reflexivity; discriminate H. }
  assert (Hjoin : (exists vp,
                      In vp (NecessidadeTransferencia.vendas_produtos_ordem_original ps vs)
                      /\ In v (vendas vp)) <->
                  (s_produto ps v || negb (is_confirmada (situacao v))) = false).
  { unfold s_produto. split.
    - intros [vp [Hvp Hv]].
      destruct (ordem_original_sound ps vs vp Hvp) as (Hp & _ & Hall).
      rewrite Forall_forall in Hall. destruct (Hall v Hv) as (_ & Hc & Hconf).
      rewrite Hconf. simpl. rewrite orb_false_r. apply negb_false_iff.
      apply existsb_exists. exists (produto vp). split.
      + eapply nth_error_In; eauto.
      + now apply Z.eqb_eq.
    - intros H. apply orb_false_iff in H. destruct H as [H1 H2].
      apply negb_false_iff in H1, H2. apply existsb_exists in H1.
      destruct H1 as [p [Hp Hc]]. apply Z.eqb_eq in Hc.
      apply In_nth_error in Hp. destruct Hp as [j Hj].
      destruct (ordem_original_complete ps vs j p v Hj (nth_error_In _ _ Hn) Hc H2)
        as [vp (Hvp & _ & _ & Hv)].
      now exists vp. }
  rewrite Hflag, Hjoin.
  destruct (s_produto ps v || negb (is_confirmada (situacao v))); split; intros H;
    try reflexivity; try discriminate; congruence.
Qed.

Lemma venda_divergente_ou_transferida_witness :
  let ps := [mk_Produto 1 50 20] in
  let vs := [mk_Venda 1 40 CONFIRMADA_PGTO_OK WEBSITE;
             mk_Venda 999 3 CONFIRMADA_PGTO_OK APP_ANDROID] in
  nth_error vs 1%nat = Some (mk_Venda 999 3 CONFIRMADA_PGTO_OK APP_ANDROID)
  /\ ~ exists vp, In vp (NecessidadeTransferencia.vendas_produtos_ordem_original ps vs)
                  /\ In (mk_Venda 999 3 CONFIRMADA_PGTO_OK APP_ANDROID) (vendas vp).
Proof.
  intros ps vs.
  assert (Hn : nth_error vs 1%nat = Some (mk_Venda 999 3 CONFIRMADA_PGTO_OK APP_ANDROID))
    by reflexivity.
  split; [exact Hn|].
  apply (proj1 (venda_divergente_ou_transferida ps vs 1%nat _ Hn)).
  simpl. left. reflexivity.
Defined.

End DivergenciaFacts.

(** * Reading the input lines *)

Section LeituraFacts.

Import Sistema.

Variable int : string -> option Z.

(** [sep] does not occur in [s]. *)
Let sem (sep : ascii) (s : string) : Prop := ~ In sep (list_ascii_of_string s).

Lemma split_not_nil (sep : ascii) (s : string) : Py.split sep s <> [].
Proof.
  destruct s as [|c s]; simpl; [discriminate|].
  destruct (Ascii.eqb c sep); [discriminate|].
  destruct (Py.split sep s); discriminate.
Qed.

Lemma split_concat (sep : ascii) (s : string) :
  String.concat (String sep EmptyString) (Py.split sep s) = s.
Proof.
  induction s as [|c s IH]; [reflexivity|]. simpl.
  pose proof (split_not_nil sep s) as Hne.
  destruct (Ascii.eqb_spec c sep) as [->|Hc].
  - destruct (Py.split sep s) as [|f fs]; [contradiction|].
    simpl in *. now rewrite IH.
  - destruct (Py.split sep s) as [|f fs]; [contradiction|].
    destruct fs as [|g fs]; simpl in *; now rewrite IH.
Qed.

Lemma split_sem (sep : ascii) (s : string) : Forall (sem sep) (Py.split sep s).
Proof.
  induction s as [|c s IH]; simpl.
  - constructor; [|constructor]. intros [].
  - destruct (Ascii.eqb_spec c sep) as [->|Hc].
    + constructor; [intros []|exact IH].
    + destruct (Py.split sep s) as [|f fs].
      * constructor; [|constructor]. intros [H|[]]. now apply Hc.
      * inversion IH as [|? ? Hf Hfs]; subst. constructor; [|exact Hfs].
        intros [H|H]; [now apply Hc|now apply Hf].
Qed.

Lemma split_sem_one (sep : ascii) (f : string) : sem sep f -> Py.split sep f = [f].
Proof.
  induction f as [|c f IH]; intros Hf; [reflexivity|]. simpl.
  destruct (Ascii.eqb_spec c sep) as [->|Hc].
  - exfalso. apply Hf. now left.
  - rewrite IH; [reflexivity|]. intros H. apply Hf. now right.
Qed.

Lemma split_sem_app (sep : ascii) (f rest : string) :
  sem sep f -> Py.split sep (f ++ String sep rest) = f :: Py.split sep rest.
Proof.
  induction f as [|c f IH]; intros Hf; simpl.
  - now rewrite Ascii.eqb_refl.
  - destruct (Ascii.eqb_spec c sep) as [->|Hc].
    + exfalso. apply Hf. now left.
    + rewrite IH; [reflexivity|]. intros H. apply Hf. now right.
Qed.

(** The fields of a line: [split] gives three fields exactly for a line made
    of three stretches free of the delimiter, with a delimiter between
    them. *)
Lemma split_three (sep : ascii) (linha a b c : string) :
  Py.split sep linha = [a; b; c] <->
  linha = (a ++ String sep (b ++ String sep c))%string
  /\ sem sep a /\ sem sep b /\ sem sep c.
Proof.
  split.
  - intros H. pose proof (split_concat sep linha) as Hc.
    pose proof (split_sem sep linha) as Hs. rewrite H in Hc, Hs. simpl in Hc.
    inversion Hs as [|? ? Ha Hs1]; subst. inversion Hs1 as [|? ? Hb Hs2]; subst.
    inversion Hs2 as [|? ? Hcc _]; subst. now repeat split.
  - intros (-> & Ha & Hb & Hc).
    now rewrite (split_sem_app sep a _ Ha), (split_sem_app sep b _ Hb),
      (split_sem_one sep c Hc).
Qed.

Lemma split_four (sep : ascii) (linha a b c d : string) :
  Py.split sep linha = [a; b; c; d] <->
  linha = (a ++ String sep (b ++ String sep (c ++ String sep d)))%string
  /\ sem sep a /\ sem sep b /\ sem sep c /\ sem sep d.
Proof.
  split.
  - intros H. pose proof (split_concat sep linha) as Hc.
    pose proof (split_sem sep linha) as Hs. rewrite H in Hc, Hs. simpl in Hc.
    inversion Hs as [|? ? Ha Hs1]; subst. inversion Hs1 as [|? ? Hb Hs2]; subst.
    inversion Hs2 as [|? ? Hcc Hs3]; subst. inversion Hs3 as [|? ? Hd _]; subst.
    now repeat split.
  - intros (-> & Ha & Hb & Hc & Hd).
    now rewrite (split_sem_app sep a _ Ha), (split_sem_app sep b _ Hb),
      (split_sem_app sep c _ Hc), (split_sem_one sep d Hd).
Qed.

Lemma _SituacaoVenda_de_iff (n : Z) (s : _SituacaoVenda) :
  _SituacaoVenda_de n = Some s <-> situacao_value s = n.
Proof.
  unfold _SituacaoVenda_de. cbn [find situacao_value]. split.
  - repeat match goal with
           | |- context [?a =? n] => destruct (Z.eqb_spec a n)
           end; intros H; inversion H; subst; reflexivity.
  - intros <-. destruct s; reflexivity.
Qed.

Lemma _CanalVenda_de_iff (n : Z) (c : _CanalVenda) :
  _CanalVenda_de n = Some c <-> canal_value c = n.
Proof.
  unfold _CanalVenda_de. cbn [find canal_value]. split.
  - repeat match goal with
           | |- context [?a =? n] => destruct (Z.eqb_spec a n)
           end; intros H; inversion H; subst; reflexivity.
  - intros <-. destruct c; reflexivity.
Qed.

(** A line of the products file is read exactly when it is made of three
    fields separated by [;], each of which [int] converts; the product has
    the three numbers, in the order code, stock, minimum.  A line with fewer
    or more fields, or with a field that [int] rejects, is not read. *)
Theorem ler_produto_iff (linha : string) (p : _Produto) :
  ler_produto int linha = Some p <->
  exists cod qtd_est qtd_min : string,
    linha = (cod ++ ";" ++ qtd_est ++ ";" ++ qtd_min)%string
    /\ sem ";" cod /\ sem ";" qtd_est /\ sem ";" qtd_min
    /\ int cod = Some (codigo p)
    /\ int qtd_est = Some (qtd_estoque p)
    /\ int qtd_min = Some (qtd_min_co p).
Proof.
  unfold ler_produto, _DELIMITADOR_DADOS. split.
  - destruct (Py.split ";" linha) as [|a [|b [|c [|d l]]]] eqn:Hs; try discriminate.
    apply split_three in Hs. destruct Hs as (-> & Ha & Hb & Hc).
    destruct (int a) as [x|] eqn:Ea; [|discriminate].
    destruct (int b) as [y|] eqn:Eb; [|discriminate].
    destruct (int c) as [z|] eqn:Ec; [|discriminate].
    intros H. inversion H; subst. simpl. exists a, b, c. now repeat split.
  - intros [a [b [c (Hl & Ha & Hb & Hc & Ea & Eb & Ec)]]].
    assert (Hs : Py.split ";" linha = [a; b; c]) by (apply split_three; now repeat split).
    rewrite Hs, Ea, Eb, Ec. now destruct p.
Qed.

(** A line of the sales file is read exactly when it is made of four fields
    separated by [;], each of which [int] converts, the third to the value
    of a status and the fourth to the value of a channel; a status code or a
    channel code that is no member's value makes the line rejected. *)
Theorem ler_venda_iff (linha : string) (v : _Venda) :
  ler_venda int linha = Some v <->
  exists cod_prd qtd sit can : string,
    linha = (cod_prd ++ ";" ++ qtd ++ ";" ++ sit ++ ";" ++ can)%string
    /\ sem ";" cod_prd /\ sem ";" qtd /\ sem ";" sit /\ sem ";" can
    /\ int cod_prd = Some (cod_produto v)
    /\ int qtd = Some (Entrada.qtd v)
    /\ int sit = Some (situacao_value (situacao v))
    /\ int can = Some (canal_value (canal v)).
Proof.
  unfold ler_venda, _DELIMITADOR_DADOS. split.
  - destruct (Py.split ";" linha) as [|a [|b [|c [|d [|e l]]]]] eqn:Hs; try discriminate.
    apply split_four in Hs. destruct Hs as (-> & Ha & Hb & Hc & Hd).
    destruct (int a) as [x|] eqn:Ea; [|discriminate].
    destruct (int b) as [y|] eqn:Eb; [|discriminate].
    destruct (int c) as [z|] eqn:Ec; [|discriminate].
    destruct (int d) as [t|] eqn:Ed; [|discriminate].
    destruct (_SituacaoVenda_de z) as [st|] eqn:Es; [|discriminate].
    destruct (_CanalVenda_de t) as [cn|] eqn:En; [|discriminate].
    apply _SituacaoVenda_de_iff in Es. apply _CanalVenda_de_iff in En.
    intros H. inversion H; subst. simpl. exists a, b, c, d. now repeat split.
  - intros [a [b [c [d (Hl & Ha & Hb & Hc & Hd & Ea & Eb & Ec & Ed)]]]].
    assert (Hs : Py.split ";" linha = [a; b; c; d])
      by (apply split_four; now repeat split).
    rewrite Hs, Ea, Eb, Ec, Ed.
    rewrite (proj2 (_SituacaoVenda_de_iff _ (situacao v)) eq_refl).
    rewrite (proj2 (_CanalVenda_de_iff _ (canal v)) eq_refl).
    now destruct v.
Qed.

End LeituraFacts.

(** * The run *)

Section SistemaFacts.

Import Sistema.

Variable resolve : string -> string.
Variable int : string -> option Z.

Lemma append_nil_r (s : string) : (s ++ "")%string = s.
Proof. induction s as [|c s IH]; simpl; [reflexivity|now rewrite IH]. Qed.

Lemma append_assoc (s t u : string) : ((s ++ t) ++ u)%string = (s ++ t ++ u)%string.
Proof. induction s as [|c s IH]; simpl; [reflexivity|now rewrite IH]. Qed.

(** The check of the input files prints one line for every file that is not
    there, touches no file, and tells whether both are there. *)
Lemma garantir_arquivos_entrada_spec (w : Mundo) :
  _garantir_arquivos_entrada resolve w
  = (Ok (match arquivos w _CAMINHO_ARQUIVO_PRODUTOS, arquivos w _CAMINHO_ARQUIVO_VENDAS with
         | Some _, Some _ => true
         | _, _ => false
         end),
     mk_Mundo (arquivos w) (stdout w)
       (stderr w ++ aviso resolve w _CAMINHO_ARQUIVO_PRODUTOS
                 ++ aviso resolve w _CAMINHO_ARQUIVO_VENDAS)).
Proof.
  destruct w as [fs out err].
  unfold _garantir_arquivos_entrada, aviso.
  generalize _CAMINHO_ARQUIVO_PRODUTOS, _CAMINHO_ARQUIVO_VENDAS,
    _MSG_ARQUIVO_NAO_ENCONTRADO.
  intros produtos vendas msg. simpl fold_left.
  unfold bind, ret, is_file, print_stderr. simpl.
  destruct (fs produtos) as [tp|] eqn:EP; destruct (fs vendas) as [tv|] eqn:EV;
    simpl; rewrite ?EP, ?EV; simpl;
    rewrite ?append_nil_r, ?append_assoc; simpl;
    rewrite ?append_assoc; simpl; reflexivity.
Qed.

Lemma append_inv_nil (s t : string) : (s ++ t)%string = s -> t = EmptyString.
Proof.
  induction s as [|c s IH]; simpl; intros H; [exact H|].
  inversion H. now apply IH.
Qed.

(** With an input file missing, [_gerar_resultado] returns [None] after the
    check: no file is read, nothing is computed. *)
Lemma gerar_resultado_missing (w : Mundo) :
  arquivos w _CAMINHO_ARQUIVO_PRODUTOS = None
  \/ arquivos w _CAMINHO_ARQUIVO_VENDAS = None ->
  _gerar_resultado resolve int w
  = (Ok None,
     mk_Mundo (arquivos w) (stdout w)
       (stderr w ++ aviso resolve w _CAMINHO_ARQUIVO_PRODUTOS
                 ++ aviso resolve w _CAMINHO_ARQUIVO_VENDAS)).
Proof.
  intros H. unfold _gerar_resultado, bind.
  rewrite garantir_arquivos_entrada_spec.
  destruct H as [H|H]; rewrite H;
    [|destruct (arquivos w _CAMINHO_ARQUIVO_PRODUTOS)]; reflexivity.
Qed.

(** C9.  When the products file or the sales file is not there, the run
    prints its banner, prints on [stderr] one line for every missing file,
    gets [None] from [_gerar_resultado], which reads and computes nothing,
    and returns: the files are what they were, so none of the three reports
    is written or modified. *)
Theorem main_missing_input (w : Mundo) :
  arquivos w _CAMINHO_ARQUIVO_PRODUTOS = None
  \/ arquivos w _CAMINHO_ARQUIVO_VENDAS = None ->
  fst (_gerar_resultado resolve int w) = Ok None
  /\ fst (_main resolve int w) = Ok tt
  /\ arquivos (snd (_main resolve int w)) = arquivos w
  /\ stdout (snd (_main resolve int w)) = (stdout w ++ _MSG_INICIO ++ Py.nl)%string
  /\ stderr (snd (_main resolve int w))
     = (stderr w ++ aviso resolve w _CAMINHO_ARQUIVO_PRODUTOS
                 ++ aviso resolve w _CAMINHO_ARQUIVO_VENDAS)%string
  /\ stderr (snd (_main resolve int w)) <> stderr w.
Proof.
  intros H. split; [now rewrite gerar_resultado_missing|].
  assert (Hmain : _main resolve int w
                  = (Ok tt,
                     mk_Mundo (arquivos w) (stdout w ++ _MSG_INICIO ++ Py.nl)
                       (stderr w ++ aviso resolve w _CAMINHO_ARQUIVO_PRODUTOS
                                 ++ aviso resolve w _CAMINHO_ARQUIVO_VENDAS))).
  { unfold _main, bind at 1. unfold print at 1. unfold bind.
    rewrite gerar_resultado_missing by exact H. reflexivity. }
  rewrite Hmain. simpl. repeat split.
  intros Heq. apply append_inv_nil in Heq. unfold aviso in Heq.
  destruct H as [H|H]; rewrite H in Heq.
  - discriminate Heq.
  - destruct (arquivos w _CAMINHO_ARQUIVO_PRODUTOS); discriminate Heq.
Qed.

(** *** Both input files present *)


(** With both input files there, [_gerar_resultado] prints nothing, touches
    no file, and returns the three reports of the products and sales it
    read, or raises [ValueError] if a line of either file is not read. *)
Lemma gerar_resultado_present (w : Mundo) (tp tv : string) :
  arquivos w _CAMINHO_ARQUIVO_PRODUTOS = Some tp ->
  arquivos w _CAMINHO_ARQUIVO_VENDAS = Some tv ->
  _gerar_resultado resolve int w
  = (match Py.traverse (ler_produto int) (Py.readlines tp) with
     | None => Levantou ValueError
     | Some produtos =>
         match Py.traverse (ler_venda int) (Py.readlines tv) with
         | None => Levantou ValueError
         | Some vendas =>
             Ok (Some (mk_Resultado
                         (NecessidadeTransferencia.multigerar produtos vendas)
                         (Divergencia.multigerar produtos vendas)
                         (QtdVendasPorCanal.multigerar vendas)))
         end
     end,
     mk_Mundo (arquivos w) (stdout w) (stderr w)).
Proof.
  intros HP HV. unfold _gerar_resultado, bind.
  rewrite garantir_arquivos_entrada_spec. unfold aviso. rewrite HP, HV.
  cbn [negb]. unfold ler. cbn [arquivos]. rewrite HP. cbn [arquivos]. rewrite HV.
  cbn [append]. rewrite append_nil_r.
  destruct (Py.traverse (ler_produto int) (Py.readlines tp)) as [produtos|];
    [|reflexivity].
  destruct (Py.traverse (ler_venda int) (Py.readlines tv)) as [vendas|]; reflexivity.
Qed.

(** The three writes, whatever the reports: each output file gets a text
    that depends on its report alone, nothing else changes. *)
Lemma salvar_relatorios (r : _Resultado) :
  exists t1 t2 t3 : string,
    forall w : Mundo,
      (_salvar_necessidades (necessidades r) ;;;
       _salvar_divergencias (divergencias r) ;;;
       _salvar_vendas_por_canal (vendas_por_canal r)) w
      = (Ok tt,
         mk_Mundo
           (fun p =>
              if String.eqb p _CAMINHO_ARQUIVO_VENDAS_POR_CANAL then Some t3
              else if String.eqb p _CAMINHO_ARQUIVO_DIVERGENCIAS then Some t2
              else if String.eqb p _CAMINHO_ARQUIVO_TRANSFERENCIAS then Some t1
              else arquivos w p)
           (stdout w) (stderr w)).
Proof.
  do 3 eexists. intros w.
  unfold _salvar_necessidades, _salvar_divergencias, _salvar_vendas_por_canal,
    bind, escrever.
  cbn [arquivos stdout stderr]. reflexivity.
Qed.

Lemma main_missing (w : Mundo) :
  arquivos w _CAMINHO_ARQUIVO_PRODUTOS = None
  \/ arquivos w _CAMINHO_ARQUIVO_VENDAS = None ->
  _main resolve int w
  = (Ok tt,
     mk_Mundo (arquivos w) (stdout w ++ _MSG_INICIO ++ Py.nl)
       (stderr w ++ aviso resolve w _CAMINHO_ARQUIVO_PRODUTOS
                 ++ aviso resolve w _CAMINHO_ARQUIVO_VENDAS)).
Proof.
  intros H. unfold _main, bind at 1. unfold print at 1. unfold bind.
  rewrite gerar_resultado_missing by exact H. reflexivity.
Qed.

Lemma main_present (w : Mundo) (tp tv : string) :
  arquivos w _CAMINHO_ARQUIVO_PRODUTOS = Some tp ->
  arquivos w _CAMINHO_ARQUIVO_VENDAS = Some tv ->
  _main resolve int w
  = match Py.traverse (ler_produto int) (Py.readlines tp),
          Py.traverse (ler_venda int) (Py.readlines tv) with
    | Some produtos, Some vendas =>
        (_salvar_necessidades (NecessidadeTransferencia.multigerar produtos vendas) ;;;
         _salvar_divergencias (Divergencia.multigerar produtos vendas) ;;;
         _salvar_vendas_por_canal (QtdVendasPorCanal.multigerar vendas))
          (mk_Mundo (arquivos w) (stdout w ++ _MSG_INICIO ++ Py.nl) (stderr w))
    | _, _ =>
        (Levantou ValueError,
         mk_Mundo (arquivos w) (stdout w ++ _MSG_INICIO ++ Py.nl) (stderr w))
    end.
Proof.
  intros HP HV. unfold _main, bind at 1. unfold print at 1. unfold bind at 1.
  rewrite (gerar_resultado_present _ tp tv) by assumption.
  destruct (Py.traverse (ler_produto int) (Py.readlines tp)) as [produtos|];
    [|reflexivity].
  destruct (Py.traverse (ler_venda int) (Py.readlines tv)) as [vendas|]; reflexivity.
Qed.

(** The check of the input files answers [True] exactly when both files are
    there, and then prints nothing; in no case does it touch a file or
    print on [stdout]. *)
Theorem garantir_arquivos_entrada_ok (w : Mundo) :
  (fst (_garantir_arquivos_entrada resolve w) = Ok true <->
   (exists tp, arquivos w _CAMINHO_ARQUIVO_PRODUTOS = Some tp)
   /\ (exists tv, arquivos w _CAMINHO_ARQUIVO_VENDAS = Some tv))
  /\ (fst (_garantir_arquivos_entrada resolve w) = Ok true ->
      stderr (snd (_garantir_arquivos_entrada resolve w)) = stderr w)
  /\ arquivos (snd (_garantir_arquivos_entrada resolve w)) = arquivos w
  /\ stdout (snd (_garantir_arquivos_entrada resolve w)) = stdout w.
Proof.
  rewrite garantir_arquivos_entrada_spec. unfold aviso. cbn [fst snd arquivos stdout stderr].
  destruct (arquivos w _CAMINHO_ARQUIVO_PRODUTOS) as [tp|];
    destruct (arquivos w _CAMINHO_ARQUIVO_VENDAS) as [tv|];
    (split; [split; [intros H; try discriminate H; split; eauto
                    |intros [[? H1] [? H2]]; try discriminate H1; try discriminate H2;
                     reflexivity]
            |split; [intros H; try discriminate H; cbn [append]; apply append_nil_r
                    |split; reflexivity]]).
Qed.



(** Running again changes nothing: after a second run on the files that a
    first run left, every file has the text it had after the first run. *)
Theorem main_idempotent (w : Mundo) (p : string) :
  arquivos (snd (_main resolve int (snd (_main resolve int w)))) p
  = arquivos (snd (_main resolve int w)) p.
Proof.
  destruct (arquivos w _CAMINHO_ARQUIVO_PRODUTOS) as [tp|] eqn:HP;
    [destruct (arquivos w _CAMINHO_ARQUIVO_VENDAS) as [tv|] eqn:HV|].
  - rewrite (main_present w tp tv HP HV).
    destruct (Py.traverse (ler_produto int) (Py.readlines tp)) as [produtos|] eqn:Hps;
      [destruct (Py.traverse (ler_venda int) (Py.readlines tv)) as [vendas|] eqn:Hvs|].
    + destruct (salvar_relatorios
                  (mk_Resultado (NecessidadeTransferencia.multigerar produtos vendas)
                                (Divergencia.multigerar produtos vendas)
                                (QtdVendasPorCanal.multigerar vendas)))
        as [t1 [t2 [t3 Hw]]].
      cbn [necessidades divergencias vendas_por_canal] in Hw. rewrite Hw.
      cbn [snd]. erewrite main_present; [|exact HP|exact HV].
      rewrite Hps, Hvs, Hw. cbn [snd arquivos].
      destruct (String.eqb p _CAMINHO_ARQUIVO_VENDAS_POR_CANAL); [reflexivity|].
      destruct (String.eqb p _CAMINHO_ARQUIVO_DIVERGENCIAS); [reflexivity|].
      destruct (String.eqb p _CAMINHO_ARQUIVO_TRANSFERENCIAS); reflexivity.
    + cbn [snd]. erewrite main_present; [|exact HP|exact HV].
      rewrite Hps, Hvs. reflexivity.
    + cbn [snd]. erewrite main_present; [|exact HP|exact HV].
      rewrite Hps. reflexivity.
  - rewrite (main_missing w (or_intror HV)). cbn [snd].
    rewrite main_missing; [reflexivity|]. right. exact HV.
  - rewrite (main_missing w (or_introl HP)). cbn [snd].
    rewrite main_missing; [reflexivity|]. left. exact HP.
Qed.

End SistemaFacts.

Lemma main_missing_input_witness :
  let w := Sistema.mk_Mundo
             (fun p => if String.eqb p "produtos.txt"
                       then Some ("1;50;20" ++ Py.nl)%string else None)
             EmptyString EmptyString in
  Sistema.arquivos w Sistema._CAMINHO_ARQUIVO_VENDAS = None
  /\ Sistema.arquivos (snd (Sistema._main (fun p => p) Sistema.int_decimal w))
       Sistema._CAMINHO_ARQUIVO_TRANSFERENCIAS = None
  /\ Sistema.stderr (snd (Sistema._main (fun p => p) Sistema.int_decimal w))
     = ("Arquivo de teste não encontrado: vendas.txt" ++ Py.nl)%string.
Proof.
  intros w.
  assert (H : Sistema.arquivos w Sistema._CAMINHO_ARQUIVO_VENDAS = None) by reflexivity.
  destruct (main_missing_input (fun p => p) Sistema.int_decimal w (or_intror H))
    as (_ & _ & Hfs & _ & Herr & _).
  split; [exact H|]. split.
  - rewrite Hfs. reflexivity.
  - rewrite Herr. reflexivity.
Defined.

Lemma garantir_arquivos_entrada_ok_witness :
  let w := Sistema.mk_Mundo
             (fun p => if String.eqb p "produtos.txt" then Some EmptyString
                       else if String.eqb p "vendas.txt" then Some EmptyString
                       else None)
             EmptyString "x" in
  fst (Sistema._garantir_arquivos_entrada (fun p => p) w) = Sistema.Ok true
  /\ Sistema.stderr (snd (Sistema._garantir_arquivos_entrada (fun p => p) w)) = "x"%string.
Proof.
  intros w.
  assert (H : fst (Sistema._garantir_arquivos_entrada (fun p => p) w) = Sistema.Ok true)
    by reflexivity.
  split; [exact H|].
  exact (proj1 (proj2 (garantir_arquivos_entrada_ok (fun p => p) w)) H).
Defined.



(** * A run with both input files *)

(** Two products, three sales: the second sale names an unknown product and
    is cancelled, the third has its payment pending. *)
Example main_run :
  let w := Sistema.mk_Mundo
             (fun p =>
                if String.eqb p "produtos.txt"
                then Some ("1;50;20" ++ Py.nl ++ "2;5;8" ++ Py.nl)%string
                else if String.eqb p "vendas.txt"
                then Some ("1;33;100;2" ++ Py.nl ++ "999;1;135;1" ++ Py.nl
                           ++ "2;4;102;3")%string
                else None)
             EmptyString EmptyString in
  let w' := snd (Sistema._main (fun p => p) Sistema.int_decimal w) in
  Sistema.stderr w' = EmptyString
  /\ Sistema.arquivos w' "transfere.txt"
     = Some ("Necessidade de Transferência Armazém para CO" ++ Py.nl ++ Py.nl
             ++ "Produto  QtCO  QtMin  QtVendas  Estq.após  Necess.  Transf. de" ++ Py.nl
             ++ "                                   Vendas            Arm p/ CO" ++ Py.nl
             ++ "1          50     20        33         17        3          10" ++ Py.nl
             ++ "2           5      8         4          1        7          10" ++ Py.nl)%string
  /\ Sistema.arquivos w' "divergencias.txt"
     = Some ("Linha 02 – Código de Produto não encontrado 00999" ++ Py.nl)%string
  /\ Sistema.arquivos w' "totcanais.txt"
     = Some ("Quantidades de Vendas por canal" ++ Py.nl ++ Py.nl
             ++ "Canal                  QtVendas" ++ Py.nl
             ++ "2 - Website                  33" ++ Py.nl
             ++ "3 - App móvel Android         4" ++ Py.nl)%string.
Proof.
  repeat split; vm_compute; reflexivity.
Qed.
